(** * Gift-certificate plugin: verification of the checkout helpers

    A shallow embedding of the three script files of the cartridge

    - [cartridge/scripts/helpers/giftCertHelpers.js]
    - the checkout helpers ([placeOrder], [getNonGiftCertificateAmount],
      [calculatePaymentTransaction], ...)
    - [cartridge/controllers/Cart.js]

    JavaScript statements that mutate a basket, an order or a form become
    computations in a small state-and-exception monad; [try]/[catch],
    [throw] and [Transaction.wrap] are combinators of that monad.  The
    commerce platform the scripts call into ([dw.value.Money], the basket
    and order API, the managers) is not part of the cartridge: it is
    modelled here by the definitions marked as such. *)

From Stdlib Require Import List String Ascii Bool Arith Lia ZArith QArith Qminmax Lqa.
Import ListNotations.

Set Implicit Arguments.

(* ------------------------------------------------------------------ *)
(** ** Exceptions and the effect monad                                 *)
(* ------------------------------------------------------------------ *)

(** What a script can raise. *)
Inductive Exn : Type :=
| JsError                          (* [throw new Error()] *)
| TypeError                        (* a property read on [null] *)
| CurrencyMismatch                 (* Money arithmetic across currencies *)
| PlatformFailure (what : string). (* a platform call raised *)

Section Effects.
Context {St : Type}.

(** How a computation over a state [St] ends: normally with a value, or
    abruptly with an exception.  Either way the mutations done so far
    are in the final state. *)
Inductive Completion (A : Type) : Type :=
| Normal (a : A) (s : St)
| Throw (e : Exn) (s : St).
Arguments Normal {A} a s.
Arguments Throw {A} e s.

Definition Eff (A : Type) : Type := St -> Completion A.

Definition ret {A} (a : A) : Eff A := fun s => Normal a s.

Definition bind {A B} (c : Eff A) (k : A -> Eff B) : Eff B :=
  fun s => match c s with
           | Normal a s' => k a s'
           | Throw e s' => Throw e s'
           end.

Definition throw {A} (e : Exn) : Eff A := fun s => Throw e s.

Definition gets {A} (f : St -> A) : Eff A := fun s => Normal (f s) s.

Definition modify (f : St -> St) : Eff unit := fun s => Normal tt (f s).

(** A pure platform call that may raise. *)
Definition lift {A} (r : Exn + A) : Eff A :=
  match r with
  | inl e => throw e
  | inr a => ret a
  end.

(** [try { body } catch (e) { handler }] *)
Definition try_catch {A} (body : Eff A) (handler : Exn -> Eff A) : Eff A :=
  fun s => match body s with
           | Normal a s' => Normal a s'
           | Throw e s' => handler e s'
           end.

(** [while (it.hasNext()) { f(it.next()) }] over a snapshot collection,
    and [array.forEach(f)]. *)
Fixpoint forEach {A} (f : A -> Eff unit) (l : list A) : Eff unit :=
  match l with
  | [] => ret tt
  | x :: l' => bind (f x) (fun _ => forEach f l')
  end.

(** A loop that threads an accumulator variable through the iteration. *)
Fixpoint foldM {A B} (f : B -> A -> Eff B) (acc : B) (l : list A) : Eff B :=
  match l with
  | [] => ret acc
  | x :: l' => bind (f acc x) (fun acc' => foldM f acc' l')
  end.

(** [array.map(f)] *)
Fixpoint mapM {A B} (f : A -> Eff B) (l : list A) : Eff (list B) :=
  match l with
  | [] => ret []
  | x :: l' => bind (f x) (fun y => bind (mapM f l') (fun ys => ret (y :: ys)))
  end.
End Effects.

Arguments Completion : clear implicits.
Arguments Eff : clear implicits.
Arguments Normal {St A} a s.
Arguments Throw {St A} e s.

Declare Scope eff_scope.
Delimit Scope eff_scope with eff.
Notation "x <- c ;; k" := (bind c (fun x => k))
  (at level 61, c at next level, right associativity) : eff_scope.
Notation "c ;; k" := (bind c (fun _ => k))
  (at level 61, right associativity) : eff_scope.
Local Open Scope eff_scope.

(** Modelled from the spec: the transaction scope provider
    ([dw.system.Transaction]) with its [begin()], [commit()] and
    [wrap(fn)].  What entering, committing and abandoning a scope do to
    a state depends on the state: a basket is restored on rollback, a
    trace of platform calls records the boundaries. *)
Class TransactionScope (St : Type) : Type := {
  on_begin : St -> St;            (* [Transaction.begin()] *)
  on_commit : St -> St;           (* [Transaction.commit()] *)
  on_wrap_enter : St -> St;       (* entering [Transaction.wrap(fn)] *)
  on_wrap_commit : St -> St;      (* [fn] returned: the scope commits *)
  on_wrap_rollback : St -> St -> St
    (* [fn] raised: from the state at entry and the state at the raise *)
}.

Section Transaction.
Context {St : Type} `{TransactionScope St}.

Definition Transaction_begin : Eff St unit := modify on_begin.
Definition Transaction_commit : Eff St unit := modify on_commit.

(** [Transaction.wrap(fn)]: runs [fn] in a scope of its own, commits
    when it returns, rolls back and re-raises when it raises. *)
Definition Transaction_wrap {A} (fn : Eff St A) : Eff St A :=
  fun s => match fn (on_wrap_enter s) with
           | Normal a s' => Normal a (on_wrap_commit s')
           | Throw e s' => Throw e (on_wrap_rollback s s')
           end.
End Transaction.

(* ------------------------------------------------------------------ *)
(** ** Money                                                           *)
(* ------------------------------------------------------------------ *)

(** Modelled from the spec: [dw.value.Money], the platform's immutable
    currency-tagged decimal amount with add, subtract and compare.
    Amounts are rationals.  Arithmetic between two values requires the
    same currency code; across currencies it raises. *)
Module Money.
Record t : Type := new { value : Q; currencyCode : string }.

Definition getCurrencyCode (m : t) : string := currencyCode m.

Definition add (a b : t) : Exn + t :=
  if String.eqb (currencyCode a) (currencyCode b)
  then inr (new (value a + value b) (currencyCode a))
  else inl CurrencyMismatch.

Definition subtract (a b : t) : Exn + t :=
  if String.eqb (currencyCode a) (currencyCode b)
  then inr (new (value a - value b) (currencyCode a))
  else inl CurrencyMismatch.
End Money.

(** JavaScript's [<], [<=] and [>=] on numbers.  [a < b] between two
    Money objects compares their [valueOf()], the numeric value. *)
Definition num_lt (x y : Q) : bool :=
  match (x ?= y)%Q with Lt => true | _ => false end.
Definition num_le (x y : Q) : bool := Qle_bool x y.
Definition num_ge (x y : Q) : bool := Qle_bool y x.
Definition num_gt (x y : Q) : bool := num_lt y x.

Definition Money_lt (a b : Money.t) : bool :=
  num_lt (Money.value a) (Money.value b).

(* ------------------------------------------------------------------ *)
(** ** Payment instruments and the basket                              *)
(* ------------------------------------------------------------------ *)

(** [dw.order.PaymentInstrument.METHOD_GIFT_CERTIFICATE] *)
Definition METHOD_GIFT_CERTIFICATE : string := "GIFT_CERTIFICATE".

(** A payment instrument of a basket.  [id] stands for the identity of
    the object: [removePaymentInstrument] removes the very object it is
    handed, and two instruments with equal fields are still two
    instruments.  [amount] is [getPaymentTransaction().getAmount()]. *)
Record PaymentInstrument : Type := {
  id : nat;
  paymentMethod : string;
  giftCertificateCode : string;
  amount : Money.t
}.

Definition getPaymentMethod := paymentMethod.

(** [METHOD_GIFT_CERTIFICATE.equals(pi.getPaymentMethod())] *)
Definition isGiftCertificate (pi : PaymentInstrument) : bool :=
  String.eqb METHOD_GIFT_CERTIFICATE (getPaymentMethod pi).

(** A gift-certificate line item of a basket or an order: the request to
    buy a certificate. *)
Record GiftCertificateLineItem : Type := {
  UUID : string;
  senderName : string;
  recipientName : string;
  recipientEmail : string;
  message : string;
  basePrice : Money.t;
  grossPrice : Money.t;
  netPrice : Money.t
}.

Record Basket : Type := {
  paymentInstruments : list PaymentInstrument;
  giftCertificateLineItems : list GiftCertificateLineItem;
  totalGrossPrice : Money.t;
  currencyCode : string;
  productQuantityTotal : Q
}.

(** A basket is restored when a wrapped transaction rolls back. *)
#[export] Instance Basket_scope : TransactionScope Basket := {
  on_begin := fun b => b;
  on_commit := fun b => b;
  on_wrap_enter := fun b => b;
  on_wrap_commit := fun b => b;
  on_wrap_rollback := fun b0 _ => b0
}.

Definition set_paymentInstruments (l : list PaymentInstrument) (b : Basket) : Basket :=
  {| paymentInstruments := l;
     giftCertificateLineItems := giftCertificateLineItems b;
     totalGrossPrice := totalGrossPrice b;
     currencyCode := currencyCode b;
     productQuantityTotal := productQuantityTotal b |}.

Definition set_giftCertificateLineItems (l : list GiftCertificateLineItem) (b : Basket) : Basket :=
  {| paymentInstruments := paymentInstruments b;
     giftCertificateLineItems := l;
     totalGrossPrice := totalGrossPrice b;
     currencyCode := currencyCode b;
     productQuantityTotal := productQuantityTotal b |}.

(** Modelled from the spec: the basket API of the platform (the spec's
    Instrument Ledger).  [getPaymentInstruments] lists the instruments
    in insertion order; [getGiftCertificatePaymentInstruments] keeps the
    stored-value ones, and with a code those bound to that code; both
    return a snapshot. *)
Definition getPaymentInstruments (b : Basket) : list PaymentInstrument :=
  paymentInstruments b.

Definition boundTo (code : string) (pi : PaymentInstrument) : bool :=
  isGiftCertificate pi && String.eqb (giftCertificateCode pi) code.

Definition getGiftCertificatePaymentInstruments (code : option string) (b : Basket)
  : list PaymentInstrument :=
  match code with
  | None => filter isGiftCertificate (paymentInstruments b)
  | Some c => filter (boundTo c) (paymentInstruments b)
  end.

(** Modelled from the spec: [basket.removePaymentInstrument(pi)] detaches
    the object [pi] from the basket, and does nothing if it is not
    there. *)
Definition removePaymentInstrument (pi : PaymentInstrument) : Eff Basket unit :=
  modify (fun b =>
    set_paymentInstruments
      (filter (fun p => negb (Nat.eqb (id p) (id pi))) (paymentInstruments b)) b).

(** An identity no instrument of the list has. *)
Definition fresh_id (l : list PaymentInstrument) : nat :=
  S (list_max (map id l)).

(** Modelled from the spec: [basket.createGiftCertificatePaymentInstrument
    (code, amount)] creates a new stored-value instrument bound to [code]
    with [amount] on its payment transaction, attaches it at the end of
    the basket's instruments and returns it. *)
Definition Basket_createGiftCertificatePaymentInstrument
    (code : string) (amt : Money.t) : Eff Basket PaymentInstrument :=
  fun b =>
    let pi := {| id := fresh_id (paymentInstruments b);
                 paymentMethod := METHOD_GIFT_CERTIFICATE;
                 giftCertificateCode := code;
                 amount := amt |} in
    Normal pi (set_paymentInstruments (paymentInstruments b ++ [pi]) b).

Definition getTotalGrossPrice (b : Basket) : Money.t := totalGrossPrice b.
Definition getCurrencyCode (b : Basket) : string := currencyCode b.

(** A gift certificate: the durable, spendable credential. *)
Record GiftCertificate : Type := {
  gc_code : string;
  gc_balance : Money.t;
  gc_recipientEmail : string;
  gc_recipientName : string;
  gc_senderName : string;
  gc_message : string;
  gc_orderNo : string
}.

Definition getGiftCertificateCode := gc_code.
Definition getBalance := gc_balance.
Definition getRecipientEmail := gc_recipientEmail.
Definition getSenderName := gc_senderName.

(** In-place update of the [n]-th object of a collection: how a field
    assignment through a reference to that object shows in the
    collection. *)
Fixpoint update_nth {A} (n : nat) (f : A -> A) (l : list A) : list A :=
  match l, n with
  | [], _ => []
  | x :: l', O => f x :: l'
  | x :: l', S n' => x :: update_nth n' f l'
  end.

(** [pi.getPaymentTransaction().setAmount(m)] on the instrument at
    position [ref] of the basket. *)
Definition with_amount (m : Money.t) (pi : PaymentInstrument) : PaymentInstrument :=
  {| id := id pi;
     paymentMethod := paymentMethod pi;
     giftCertificateCode := giftCertificateCode pi;
     amount := m |}.

Definition setAmount (ref : nat) (m : Money.t) : Eff Basket unit :=
  modify (fun b =>
    set_paymentInstruments (update_nth ref (with_amount m) (paymentInstruments b)) b).

(* ------------------------------------------------------------------ *)
(** ** Forms                                                           *)
(* ------------------------------------------------------------------ *)

(** A form field: its value, its validity flag and its error message. *)
Record FormField (A : Type) : Type := {
  fvalue : A;
  fvalid : bool;
  ferror : option string
}.

(** [session.forms.giftcert.purchase] *)
Record PurchaseForm : Type := {
  from : FormField string;
  recipient : FormField string;
  form_recipientEmail : FormField string;
  confirmRecipientEmail : FormField string;
  form_message : FormField string;
  form_amount : FormField Q;
  lineItemId : FormField string
}.

(** [session.forms.giftcert] *)
Record GiftCertForm : Type := {
  purchase : PurchaseForm;
  valid : bool
}.

(** The object [getGiftLineItemObj] builds to pre-fill the edit form. *)
Record GiftLineItemObj : Type := {
  obj_from : string;
  obj_lineItemId : string;
  obj_recipient : string;
  obj_recipientEmail : string;
  obj_confirmRecipientEmail : string;
  obj_message : string;
  obj_amount : Q
}.

(** Modelled from the spec: the platform's [empty(obj)], on a string:
    true for the string of length zero. *)
Definition empty (s : string) : bool := String.eqb s "".

(** Modelled from the spec: [Resource.msg(key, bundle, null)]; with no
    default message the platform falls back to the key. *)
Definition Resource_msg (key bundle : string) : string := key.

(** [String.prototype.toLowerCase], on the ASCII letters. *)
Definition lower_ascii (c : ascii) : ascii :=
  let n := nat_of_ascii c in
  if ((65 <=? n) && (n <=? 90))%nat then ascii_of_nat (n + 32) else c.

Fixpoint toLowerCase (s : string) : string :=
  match s with
  | EmptyString => EmptyString
  | String c s' => String (lower_ascii c) (toLowerCase s')
  end.

(** Modelled from the spec: the amount of a line item as the edit form
    reads it ([lineItem.price]).  The spec gives a line item one amount;
    the scripts write it as base, gross and net price and read it as
    [price], which the platform derives from the taxation policy: the
    net price under net taxation, the gross price under gross
    taxation. *)
Inductive TaxationPolicy : Type := TAX_POLICY_GROSS | TAX_POLICY_NET.

Definition price (policy : TaxationPolicy) (li : GiftCertificateLineItem) : Money.t :=
  match policy with
  | TAX_POLICY_GROSS => grossPrice li
  | TAX_POLICY_NET => netPrice li
  end.

Definition getGiftCertificateLineItems (b : Basket) : list GiftCertificateLineItem :=
  giftCertificateLineItems b.

(** Assignment to fields of the line item at position [ref] of the basket. *)
Definition assign (ref : nat) (f : GiftCertificateLineItem -> GiftCertificateLineItem)
  : Eff Basket unit :=
  modify (fun b =>
    set_giftCertificateLineItems (update_nth ref f (giftCertificateLineItems b)) b).

Definition with_senderName (v : string) (li : GiftCertificateLineItem) :=
  {| UUID := UUID li; senderName := v; recipientName := recipientName li;
     recipientEmail := recipientEmail li; message := message li;
     basePrice := basePrice li; grossPrice := grossPrice li; netPrice := netPrice li |}.
Definition with_recipientName (v : string) (li : GiftCertificateLineItem) :=
  {| UUID := UUID li; senderName := senderName li; recipientName := v;
     recipientEmail := recipientEmail li; message := message li;
     basePrice := basePrice li; grossPrice := grossPrice li; netPrice := netPrice li |}.
Definition with_recipientEmail (v : string) (li : GiftCertificateLineItem) :=
  {| UUID := UUID li; senderName := senderName li; recipientName := recipientName li;
     recipientEmail := v; message := message li;
     basePrice := basePrice li; grossPrice := grossPrice li; netPrice := netPrice li |}.
Definition with_message (v : string) (li : GiftCertificateLineItem) :=
  {| UUID := UUID li; senderName := senderName li; recipientName := recipientName li;
     recipientEmail := recipientEmail li; message := v;
     basePrice := basePrice li; grossPrice := grossPrice li; netPrice := netPrice li |}.
Definition with_basePrice (v : Money.t) (li : GiftCertificateLineItem) :=
  {| UUID := UUID li; senderName := senderName li; recipientName := recipientName li;
     recipientEmail := recipientEmail li; message := message li;
     basePrice := v; grossPrice := grossPrice li; netPrice := netPrice li |}.
Definition with_grossPrice (v : Money.t) (li : GiftCertificateLineItem) :=
  {| UUID := UUID li; senderName := senderName li; recipientName := recipientName li;
     recipientEmail := recipientEmail li; message := message li;
     basePrice := basePrice li; grossPrice := v; netPrice := netPrice li |}.
Definition with_netPrice (v : Money.t) (li : GiftCertificateLineItem) :=
  {| UUID := UUID li; senderName := senderName li; recipientName := recipientName li;
     recipientEmail := recipientEmail li; message := message li;
     basePrice := basePrice li; grossPrice := grossPrice li; netPrice := v |}.

(** Modelled from the spec: [basket.createGiftCertificateLineItem(amount,
    recipientEmail)] creates a line item of that amount, in the currency
    of the basket, for that recipient, attaches it after the line items
    of the basket and returns it.  The UUID the platform gives the new
    line item is the parameter [newUUID]. *)
Definition Basket_createGiftCertificateLineItem
    (newUUID : string) (amount : Q) (recipientEmail : string) : Eff Basket nat :=
  fun b =>
    let li := {| UUID := newUUID; senderName := ""; recipientName := "";
                 recipientEmail := recipientEmail; message := "";
                 basePrice := Money.new amount (currencyCode b);
                 grossPrice := Money.new amount (currencyCode b);
                 netPrice := Money.new amount (currencyCode b) |} in
    Normal (List.length (giftCertificateLineItems b))
           (set_giftCertificateLineItems (giftCertificateLineItems b ++ [li]) b).

(* ------------------------------------------------------------------ *)
(** ** Orders and the platform around order placement                  *)
(* ------------------------------------------------------------------ *)

(** Modelled from the spec: [dw.system.Status], the definite success
    or error status the order-management placement call returns. *)
Module Status.
Inductive t : Type := OK | ERROR.
Definition eqb (a b : t) : bool :=
  match a, b with
  | OK, OK | ERROR, ERROR => true
  | _, _ => false
  end.
End Status.

Module Order.
Inductive OrderStatus : Type :=
| ORDER_STATUS_CREATED | ORDER_STATUS_NEW | ORDER_STATUS_FAILED.
Inductive ConfirmationStatus : Type :=
| CONFIRMATION_STATUS_NOTCONFIRMED | CONFIRMATION_STATUS_CONFIRMED.
Inductive ExportStatus : Type :=
| EXPORT_STATUS_NOTEXPORTED | EXPORT_STATUS_READY.

Record t : Type := {
  orderNo : string;
  giftCertificateLineItems : list GiftCertificateLineItem;
  status : OrderStatus;
  confirmationStatus : ConfirmationStatus;
  exportStatus : ExportStatus
}.

Definition with_status (v : OrderStatus) (o : t) : t :=
  {| orderNo := orderNo o; giftCertificateLineItems := giftCertificateLineItems o;
     status := v; confirmationStatus := confirmationStatus o;
     exportStatus := exportStatus o |}.
Definition with_confirmationStatus (v : ConfirmationStatus) (o : t) : t :=
  {| orderNo := orderNo o; giftCertificateLineItems := giftCertificateLineItems o;
     status := status o; confirmationStatus := v;
     exportStatus := exportStatus o |}.
Definition with_exportStatus (v : ExportStatus) (o : t) : t :=
  {| orderNo := orderNo o; giftCertificateLineItems := giftCertificateLineItems o;
     status := status o; confirmationStatus := confirmationStatus o;
     exportStatus := v |}.
End Order.

(** The object [sendGiftCertificateEmail] hands to the e-mail helper. *)
Inductive EmailType : Type := orderConfirmation.

Record EmailObj : Type := {
  to : string;
  subject : string;
  email_from : string;
  type : EmailType
}.

(** The calls a placement makes on the platform, in the order it makes
    them. *)
Inductive Event : Type :=
| EvBegin                         (* [Transaction.begin()] *)
| EvCommit                        (* [Transaction.commit()] *)
| EvWrapEnter                     (* [Transaction.wrap] opens its scope *)
| EvWrapCommit                    (* ... and commits it *)
| EvWrapRollback                  (* ... or rolls it back *)
| EvPlaceOrder                    (* [OrderMgr.placeOrder(order)] *)
| EvFailOrder                     (* [OrderMgr.failOrder(order)] *)
| EvCreateGiftCertificate (amount : Q)
| EvSendEmail (emailObj : EmailObj) (template : string) (context : GiftCertificate).

(** The state a placement runs in: the order, the gift certificates the
    platform holds, and the trace of calls. *)
Record World : Type := {
  order : Order.t;
  giftCertificates : list GiftCertificate;
  trace : list Event
}.

Definition emit (e : Event) (w : World) : World :=
  {| order := order w; giftCertificates := giftCertificates w;
     trace := trace w ++ [e] |}.
Definition on_order (f : Order.t -> Order.t) (w : World) : World :=
  {| order := f (order w); giftCertificates := giftCertificates w;
     trace := trace w |}.
Definition on_giftCertificates (f : list GiftCertificate -> list GiftCertificate)
    (w : World) : World :=
  {| order := order w; giftCertificates := f (giftCertificates w);
     trace := trace w |}.

(** Transaction boundaries show in the trace; a wrapped scope that rolls
    back restores the order and the certificates it was entered with. *)
#[export] Instance World_scope : TransactionScope World := {
  on_begin := emit EvBegin;
  on_commit := emit EvCommit;
  on_wrap_enter := emit EvWrapEnter;
  on_wrap_commit := emit EvWrapCommit;
  on_wrap_rollback := fun w0 w1 =>
    {| order := order w0; giftCertificates := giftCertificates w0;
       trace := trace w1 ++ [EvWrapRollback] |}
}.

(** What the platform answers during one placement: everything the
    scripts cannot decide themselves. *)
Record Platform : Type := {
  (* the outcome of [OrderMgr.placeOrder(order)]: it raises, or returns
     a status *)
  placement : Exn + Status.t;
  (* does [GiftCertificateMgr.createGiftCertificate(amount)] raise? *)
  issuance_raises : Q -> bool;
  (* does sending the e-mail for this certificate raise? *)
  delivery_raises : GiftCertificate -> bool;
  (* the code of the n-th certificate the platform issues *)
  issued_code : nat -> string;
  (* the currency certificates are issued in *)
  site_currency : string;
  (* the site preference [customerServiceEmail] *)
  customerServiceEmail : option string
}.

Section PlatformCalls.
Variable platform : Platform.

(** Modelled from the spec: [OrderMgr.placeOrder(order)] returns a
    definite success or error status, or raises; on success the order
    is placed. *)
Definition OrderMgr_placeOrder : Eff World Status.t :=
  modify (emit EvPlaceOrder) ;;
  match placement platform with
  | inl e => throw e
  | inr Status.OK =>
      modify (on_order (Order.with_status Order.ORDER_STATUS_NEW)) ;;
      ret Status.OK
  | inr Status.ERROR => ret Status.ERROR
  end.

(** Modelled from the spec: [OrderMgr.failOrder(order)] marks the
    order as failed. *)
Definition OrderMgr_failOrder : Eff World unit :=
  modify (emit EvFailOrder) ;;
  modify (on_order (Order.with_status Order.ORDER_STATUS_FAILED)).

Definition setConfirmationStatus (v : Order.ConfirmationStatus) : Eff World unit :=
  modify (on_order (Order.with_confirmationStatus v)).
Definition setExportStatus (v : Order.ExportStatus) : Eff World unit :=
  modify (on_order (Order.with_exportStatus v)).

(** Modelled from the spec: [GiftCertificateMgr.createGiftCertificate
    (amount)] issues a new certificate whose balance is [amount] and
    returns it; the result is a reference to the certificate, its
    position among the certificates the platform holds. *)
Definition GiftCertificateMgr_createGiftCertificate (amount : Q) : Eff World nat :=
  if issuance_raises platform amount
  then throw (PlatformFailure "createGiftCertificate")
  else
    ref <- gets (fun w => List.length (giftCertificates w)) ;;
    modify (emit (EvCreateGiftCertificate amount)) ;;
    modify (on_giftCertificates (fun l => l ++
      [{| gc_code := issued_code platform ref;
          gc_balance := Money.new amount (site_currency platform);
          gc_recipientEmail := ""; gc_recipientName := "";
          gc_senderName := ""; gc_message := ""; gc_orderNo := "" |}])) ;;
    ret ref.

(** Modelled from the spec: the setters of a certificate (recipient,
    sender, message and order-number metadata), through a reference to
    it. *)
Definition setRecipientEmail (ref : nat) (v : string) : Eff World unit :=
  modify (on_giftCertificates (update_nth ref (fun g =>
    {| gc_code := gc_code g; gc_balance := gc_balance g;
       gc_recipientEmail := v; gc_recipientName := gc_recipientName g;
       gc_senderName := gc_senderName g; gc_message := gc_message g;
       gc_orderNo := gc_orderNo g |}))).
Definition setRecipientName (ref : nat) (v : string) : Eff World unit :=
  modify (on_giftCertificates (update_nth ref (fun g =>
    {| gc_code := gc_code g; gc_balance := gc_balance g;
       gc_recipientEmail := gc_recipientEmail g; gc_recipientName := v;
       gc_senderName := gc_senderName g; gc_message := gc_message g;
       gc_orderNo := gc_orderNo g |}))).
Definition setSenderName (ref : nat) (v : string) : Eff World unit :=
  modify (on_giftCertificates (update_nth ref (fun g =>
    {| gc_code := gc_code g; gc_balance := gc_balance g;
       gc_recipientEmail := gc_recipientEmail g; gc_recipientName := gc_recipientName g;
       gc_senderName := v; gc_message := gc_message g;
       gc_orderNo := gc_orderNo g |}))).
Definition setMessage (ref : nat) (v : string) : Eff World unit :=
  modify (on_giftCertificates (update_nth ref (fun g =>
    {| gc_code := gc_code g; gc_balance := gc_balance g;
       gc_recipientEmail := gc_recipientEmail g; gc_recipientName := gc_recipientName g;
       gc_senderName := gc_senderName g; gc_message := v;
       gc_orderNo := gc_orderNo g |}))).
Definition setOrderNo (ref : nat) (v : string) : Eff World unit :=
  modify (on_giftCertificates (update_nth ref (fun g =>
    {| gc_code := gc_code g; gc_balance := gc_balance g;
       gc_recipientEmail := gc_recipientEmail g; gc_recipientName := gc_recipientName g;
       gc_senderName := gc_senderName g; gc_message := gc_message g;
       gc_orderNo := v |}))).

(** Reading a certificate through a reference. *)
Definition deref (ref : nat) : Eff World GiftCertificate :=
  fun w => match nth_error (giftCertificates w) ref with
           | Some g => Normal g w
           | None => Throw TypeError w
           end.

(** Modelled from the spec: [emailHelpers.sendEmail(emailObj, template,
    context)] hands the message to the outbound transport, which can
    fail. *)
Definition emailHelpers_sendEmail (emailObj : EmailObj) (template : string)
    (context : GiftCertificate) : Eff World unit :=
  if delivery_raises platform context
  then throw (PlatformFailure "sendEmail")
  else modify (emit (EvSendEmail emailObj template context)).

(** [Site.current.getCustomPreferenceValue('customerServiceEmail') || dflt] *)
Definition preference_or (dflt : string) : string :=
  match customerServiceEmail platform with
  | Some s => if String.eqb s "" then dflt else s
  | None => dflt
  end.
End PlatformCalls.

(* ------------------------------------------------------------------ *)
(** ** giftCertHelpers.js                                              *)
(* ------------------------------------------------------------------ *)

Module giftCertHelpers.

(** [getGiftCertificateLineItemByUUID(lineItems, uuid)]: the first line
    item whose UUID is [uuid], or [null].  The result is a reference to
    the line item, its position in [lineItems]. *)
Fixpoint getGiftCertificateLineItemByUUID
    (lineItems : list GiftCertificateLineItem) (uuid : string) : option nat :=
  match lineItems with
  | [] => None
  | item :: it =>
      if String.eqb (UUID item) uuid then Some 0%nat
      else option_map S (getGiftCertificateLineItemByUUID it uuid)
  end.

(** [getGiftLineItemObj(giftCertificateLineItem)] *)
Definition getGiftLineItemObj (policy : TaxationPolicy)
    (giftCertificateLineItem : GiftCertificateLineItem) : GiftLineItemObj :=
  {| obj_from := senderName giftCertificateLineItem;
     obj_lineItemId := UUID giftCertificateLineItem;
     obj_recipient := recipientName giftCertificateLineItem;
     obj_recipientEmail := recipientEmail giftCertificateLineItem;
     obj_confirmRecipientEmail := recipientEmail giftCertificateLineItem;
     obj_message := message giftCertificateLineItem;
     obj_amount := Money.value (price policy giftCertificateLineItem) |}.

(** [updateGiftCert(currentBasket)], with the purchase form of the
    session as a parameter.  Returns a reference to the line item it
    updated, or [null]. *)
Definition updateGiftCert (purchaseForm : PurchaseForm) : Eff Basket (option nat) :=
  giftCertificateLineItems <- gets getGiftCertificateLineItems ;;
  let giftCertificateLineItemUUID := fvalue (lineItemId purchaseForm) in
  let giftCertificateLineItem :=
    if (0 <? List.length giftCertificateLineItems)%nat
       && negb (empty giftCertificateLineItemUUID)
    then getGiftCertificateLineItemByUUID giftCertificateLineItems
           giftCertificateLineItemUUID
    else None in
  match giftCertificateLineItem with
  | None => ret None
  | Some li =>
      Transaction_wrap (
        assign li (with_senderName (fvalue (from purchaseForm))) ;;
        assign li (with_recipientName (fvalue (recipient purchaseForm))) ;;
        assign li (with_recipientEmail (fvalue (form_recipientEmail purchaseForm))) ;;
        assign li (with_message (fvalue (form_message purchaseForm))) ;;
        let amount := fvalue (form_amount purchaseForm) in
        assign li (fun o => with_basePrice
          (Money.new amount (Money.currencyCode (basePrice o))) o) ;;
        assign li (fun o => with_grossPrice
          (Money.new amount (Money.currencyCode (grossPrice o))) o) ;;
        assign li (fun o => with_netPrice
          (Money.new amount (Money.currencyCode (netPrice o))) o)) ;;
      ret (Some li)
  end.

(** [createGiftCert(currentBasket)], with the purchase form of the
    session and the UUID of the new line item as parameters.  Returns a
    reference to the line item it added; the [null] of the source is
    never returned, since the line item is an object. *)
Definition createGiftCert (newUUID : string) (purchaseForm : PurchaseForm)
  : Eff Basket (option nat) :=
  giftCertificateLineItem <-
    Transaction_wrap (
      giftCertificateLineItem <-
        Basket_createGiftCertificateLineItem newUUID
          (fvalue (form_amount purchaseForm))
          (fvalue (form_recipientEmail purchaseForm)) ;;
      assign giftCertificateLineItem
             (with_recipientName (fvalue (recipient purchaseForm))) ;;
      assign giftCertificateLineItem
             (with_senderName (fvalue (from purchaseForm))) ;;
      assign giftCertificateLineItem
             (with_message (fvalue (form_message purchaseForm))) ;;
      ret giftCertificateLineItem) ;;
  ret (Some giftCertificateLineItem).

Definition invalidate {A} (msg : option string) (f : FormField A) : FormField A :=
  {| fvalue := fvalue f; fvalid := false;
     ferror := match msg with Some m => Some m | None => ferror f end |}.

(** [processAddToBasket(form)]: the form object is updated in place and
    returned. *)
Definition processAddToBasket (form : GiftCertForm) : GiftCertForm :=
  let giftCertForm := form in
  (* Validates confirmation of email address. *)
  let recipientEmailForm := form_recipientEmail (purchase giftCertForm) in
  let confirmRecipientEmailForm := confirmRecipientEmail (purchase giftCertForm) in
  let giftCertForm :=
    if negb (String.eqb (toLowerCase (fvalue recipientEmailForm))
                        (toLowerCase (fvalue confirmRecipientEmailForm)))
    then
      {| purchase :=
           {| from := from (purchase giftCertForm);
              recipient := recipient (purchase giftCertForm);
              form_recipientEmail := invalidate None recipientEmailForm;
              confirmRecipientEmail :=
                invalidate (Some (Resource_msg "error.message.mismatch.email" "forms"))
                           confirmRecipientEmailForm;
              form_message := form_message (purchase giftCertForm);
              form_amount := form_amount (purchase giftCertForm);
              lineItemId := lineItemId (purchase giftCertForm) |};
         valid := false |}
    else giftCertForm in
  (* Validates amount in range. *)
  let amountForm := form_amount (purchase giftCertForm) in
  if fvalid amountForm
     && (num_lt (fvalue amountForm) 5 || num_gt (fvalue amountForm) 5000)
  then
    {| purchase :=
         {| from := from (purchase giftCertForm);
            recipient := recipient (purchase giftCertForm);
            form_recipientEmail := form_recipientEmail (purchase giftCertForm);
            confirmRecipientEmail := confirmRecipientEmail (purchase giftCertForm);
            form_message := form_message (purchase giftCertForm);
            form_amount :=
              invalidate (Some (Resource_msg "giftcert.amountparseerror" "forms"))
                         amountForm;
            lineItemId := lineItemId (purchase giftCertForm) |};
       valid := false |}
  else giftCertForm.

Section WithPlatform.
Variable platform : Platform.

(** [createGiftCertificateFromLineItem(giftCertificateLineItem, orderNo)] *)
Definition createGiftCertificateFromLineItem
    (giftCertificateLineItem : GiftCertificateLineItem) (orderNo : string)
  : Eff World nat :=
  giftCertificate <- GiftCertificateMgr_createGiftCertificate platform
                       (Money.value (netPrice giftCertificateLineItem)) ;;
  setRecipientEmail giftCertificate (recipientEmail giftCertificateLineItem) ;;
  setRecipientName giftCertificate (recipientName giftCertificateLineItem) ;;
  setSenderName giftCertificate (senderName giftCertificateLineItem) ;;
  setMessage giftCertificate (message giftCertificateLineItem) ;;
  setOrderNo giftCertificate orderNo ;;
  ret giftCertificate.

(** [sendGiftCertificateEmail(GiftCertificate)] *)
Definition sendGiftCertificateEmail (GiftCertificate : nat) : Eff World unit :=
  gc <- deref GiftCertificate ;;
  let emailObj :=
    {| to := getRecipientEmail gc;
       subject := Resource_msg "resource.ordergcemsg" "email" ++ " "
                  ++ getSenderName gc;
       email_from := preference_or platform "no-reply@salesforce.com";
       type := orderConfirmation |} in
  emailHelpers_sendEmail platform emailObj "mail/giftcert" gc.
End WithPlatform.

(** [createGiftCertificatePaymentInstrument(currentBasket, giftCertificate)] *)
Definition createGiftCertificatePaymentInstrument (giftCertificate : GiftCertificate)
  : Eff Basket PaymentInstrument :=
  (* Removes found gift certificates, to prevent duplicates. *)
  gcPaymentInstrs <- gets (getGiftCertificatePaymentInstruments
                             (Some (getGiftCertificateCode giftCertificate))) ;;
  forEach (fun existingPI => removePaymentInstrument existingPI) gcPaymentInstrs ;;
  (* Fetches the balance and the order total. *)
  let balance := getBalance giftCertificate in
  orderTotal <- gets getTotalGrossPrice ;;
  (* Sets the amount to redeem equal to the remaining balance. *)
  let amountToRedeem := balance in
  cur <- gets getCurrencyCode ;;
  let giftCertTotal := Money.new 0 cur in
  (* Iterates over the gift certificate payment instruments now on the
     basket and updates the total redemption amount. *)
  gcPaymentInstrs <- gets (getGiftCertificatePaymentInstruments None) ;;
  giftCertTotal <- foldM (fun giftCertTotal orderPI =>
                            lift (Money.add giftCertTotal (amount orderPI)))
                         giftCertTotal gcPaymentInstrs ;;
  (* The remaining open order total that must be paid. *)
  orderBalance <- lift (Money.subtract orderTotal giftCertTotal) ;;
  (* The redemption amount exceeds the order balance. *)
  let amountToRedeem :=
    if Money_lt orderBalance amountToRedeem then orderBalance else amountToRedeem in
  Basket_createGiftCertificatePaymentInstrument
    (getGiftCertificateCode giftCertificate) amountToRedeem.

(** [removeGiftCertificatePaymentInstrument(currentBasket, giftCertificateID)] *)
Definition removeGiftCertificatePaymentInstrument (giftCertificateID : string)
  : Eff Basket unit :=
  gcPaymentInstrs <- gets (getGiftCertificatePaymentInstruments (Some giftCertificateID)) ;;
  forEach (fun existingPI => removePaymentInstrument existingPI) gcPaymentInstrs.

End giftCertHelpers.

(* ------------------------------------------------------------------ *)
(** ** The checkout helpers                                            *)
(* ------------------------------------------------------------------ *)

(** The object [placeOrder] and [calculatePaymentTransaction] return. *)
Record Result : Type := { error : bool }.

(** The object returned by the fraud detection hook. *)
Record FraudDetectionStatus : Type := { fraud_status : string }.

Module checkoutHelpers.

Section WithPlatform.
Variable platform : Platform.

(** [placeOrder(order, fraudDetectionStatus)]; the order is the one
    of the state. *)
Definition placeOrder (fraudDetectionStatus : FraudDetectionStatus)
  : Eff World Result :=
  try_catch
    (Transaction_begin ;;
     placeOrderStatus <- OrderMgr_placeOrder platform ;;
     (if Status.eqb placeOrderStatus Status.ERROR
      then throw JsError else ret tt) ;;
     (if String.eqb (fraud_status fraudDetectionStatus) "flag"
      then setConfirmationStatus Order.CONFIRMATION_STATUS_NOTCONFIRMED
      else setConfirmationStatus Order.CONFIRMATION_STATUS_CONFIRMED) ;;
     setExportStatus Order.EXPORT_STATUS_READY ;;
     (* Creates gift certificates for all gift certificate line items
        in the order and sends an email to the gift certificate
        receiver. *)
     lineItems <- gets (fun w => Order.giftCertificateLineItems (order w)) ;;
     created <- mapM (fun lineItem =>
                        orderNo <- gets (fun w => Order.orderNo (order w)) ;;
                        giftCertHelpers.createGiftCertificateFromLineItem
                          platform lineItem orderNo)
                     lineItems ;;
     forEach (giftCertHelpers.sendGiftCertificateEmail platform) created ;;
     Transaction_commit ;;
     ret {| error := false |})
    (fun e =>
       Transaction_wrap (OrderMgr_failOrder) ;;
       ret {| error := true |}).
End WithPlatform.

(** [getNonGiftCertificateAmount(currentBasket)] *)
Definition getNonGiftCertificateAmount : Eff Basket Money.t :=
  (* The total redemption amount of all gift certificate payment
     instruments in the basket. *)
  cur <- gets getCurrencyCode ;;
  let giftCertTotal := Money.new 0 cur in
  gcPaymentInstrs <- gets (getGiftCertificatePaymentInstruments None) ;;
  giftCertTotal <- foldM (fun giftCertTotal orderPI =>
                            lift (Money.add giftCertTotal (amount orderPI)))
                         giftCertTotal gcPaymentInstrs ;;
  orderTotal <- gets getTotalGrossPrice ;;
  (* The remaining open order total that must be paid. *)
  amountOpen <- lift (Money.subtract orderTotal giftCertTotal) ;;
  ret amountOpen.

(** The first loop of [calculatePaymentTransaction]: sums the gift
    certificate instruments it passes and stops at the first instrument
    of another kind.  Returns the sum and a reference to that
    instrument (its position in the basket), if there is one. *)
Fixpoint locate (iter : list PaymentInstrument) (pos : nat) (giftCertTotal : Money.t)
  : Eff Basket (Money.t * option nat) :=
  match iter with
  | [] => ret (giftCertTotal, None)
  | paymentInstrument :: iter' =>
      if isGiftCertificate paymentInstrument
      then
        giftCertTotal <- lift (Money.add giftCertTotal (amount paymentInstrument)) ;;
        locate iter' (S pos) giftCertTotal
      else
        (* Captures the non-gift certificate payment instrument. *)
        ret (giftCertTotal, Some pos)
  end.

(** [calculatePaymentTransaction(currentBasket)] *)
Definition calculatePaymentTransaction : Eff Basket Result :=
  iter <- gets getPaymentInstruments ;;
  cur <- gets getCurrencyCode ;;
  found <- locate iter 0 (Money.new 0 cur) ;;
  let giftCertTotal := fst found in
  let nonGCPaymentInstrument := snd found in
  orderTotal <- gets totalGrossPrice ;;
  match nonGCPaymentInstrument with
  | None =>
      (* If there are no other payment types and the gift certificate
         does not cover the open amount, then return false. *)
      if num_ge (Money.value giftCertTotal) (Money.value orderTotal)
      then ret {| error := false |}
      else ret {| error := true |}
  | Some nonGC =>
      try_catch
        (Transaction_wrap (
           amount <- getNonGiftCertificateAmount ;;
           if num_le (Money.value amount) 0
           then
             let zero := Money.new 0 (Money.getCurrencyCode amount) in
             setAmount nonGC zero
           else setAmount nonGC amount) ;;
         ret {| error := false |})
        (fun e => ret {| error := true |})
  end.

(** [removeGiftCertificatePaymentInstrument(currentBasket, giftCertificateID)] *)
Definition removeGiftCertificatePaymentInstrument (giftCertificateID : string)
  : Eff Basket unit :=
  gcPaymentInstrs <- gets (getGiftCertificatePaymentInstruments (Some giftCertificateID)) ;;
  Transaction_wrap
    (forEach (fun existingPI => removePaymentInstrument existingPI) gcPaymentInstrs).

(** [createGiftCertificatePaymentInstrument(currentBasket, giftCertificate)]:
    the checkout helpers repeat the function of [giftCertHelpers.js]
    statement for statement. *)
Definition createGiftCertificatePaymentInstrument :=
  giftCertHelpers.createGiftCertificatePaymentInstrument.

End checkoutHelpers.

(* ------------------------------------------------------------------ *)
(** ** controllers/Cart.js                                             *)
(* ------------------------------------------------------------------ *)

(** The response of the route: the view data set on it and whether the
    next step of the chain was called. *)
Record Response : Type := {
  quantityTotal : option Q;
  next_called : bool
}.

Module Cart.

Definition setViewData (q : Q) : Eff Response unit :=
  modify (fun r => {| quantityTotal := Some q; next_called := next_called r |}).
Definition next : Eff Response unit :=
  modify (fun r => {| quantityTotal := quantityTotal r; next_called := true |}).

(** Reading [currentBasket.giftCertificateLineItems]: a [TypeError]
    when [currentBasket] is [null]. *)
Definition giftCertificateLineItems_of (currentBasket : option Basket)
  : Eff Response (list GiftCertificateLineItem) :=
  match currentBasket with
  | Some b => ret (giftCertificateLineItems b)
  | None => throw TypeError
  end.

(** The handler appended to the [MiniCart] route;
    [BasketMgr.getCurrentBasket()] is the parameter. *)
Definition MiniCart (currentBasket : option Basket) : Eff Response unit :=
  let quantityTotal :=
    match currentBasket with
    | Some b => productQuantityTotal b
    | None => 0
    end in
  items <- giftCertificateLineItems_of currentBasket ;;
  quantityTotal <-
    (if (0 <? List.length items)%nat
     then
       items <- giftCertificateLineItems_of currentBasket ;;
       ret (quantityTotal + inject_Z (Z.of_nat (List.length items)))
     else ret quantityTotal) ;;
  setViewData quantityTotal ;;
  next.

End Cart.

(* ================================================================== *)
(** * Specification vocabulary and sample data                         *)
(* ================================================================== *)

Unset Implicit Arguments.

(** [sumRedeemed]: the redemption amounts of the stored-value
    instruments of a collection, added up from zero. *)
Definition sumRedeemed (l : list PaymentInstrument) : Q :=
  fold_left (fun acc pi => (acc + Money.value (amount pi))%Q)
            (filter isGiftCertificate l) 0%Q.

(** The instruments that step 1 of an application leaves on the basket:
    those not bound to the code of the credential. *)
Definition remaining (code : string) (l : list PaymentInstrument) : list PaymentInstrument :=
  filter (fun pi => negb (boundTo code pi)) l.

(** The remaining order balance an application computes. *)
Definition orderBalance (b : Basket) (code : string) : Q :=
  (Money.value (totalGrossPrice b) - sumRedeemed (remaining code (paymentInstruments b)))%Q.

(** The instruments of a basket are distinct objects. *)
Definition distinct_instruments (b : Basket) : Prop :=
  NoDup (map id (paymentInstruments b)).

(** Stored-value amounts and the order total are in the currency of the
    basket. *)
Definition in_currency (cur : string) (l : list PaymentInstrument) : Prop :=
  Forall (fun pi => isGiftCertificate pi = true ->
                    Money.currencyCode (amount pi) = cur) l.

Definition single_currency (b : Basket) : Prop :=
  Money.currencyCode (totalGrossPrice b) = currencyCode b /\
  in_currency (currencyCode b) (paymentInstruments b).

(** Does an instrument of the snapshot have the identity [n]? *)
Definition has_id (n : nat) (snapshot : list PaymentInstrument) : bool :=
  existsb (fun q => Nat.eqb (id q) n) snapshot.

(** The instrument an application creates on a basket whose instruments
    left after step 1 are [R]. *)
Definition redemption (b : Basket) (giftCertificate : GiftCertificate) : PaymentInstrument :=
  let code := getGiftCertificateCode giftCertificate in
  let R := remaining code (paymentInstruments b) in
  let orderBalance :=
    Money.new (Money.value (totalGrossPrice b) - sumRedeemed R)
              (Money.currencyCode (totalGrossPrice b)) in
  {| id := fresh_id R;
     paymentMethod := METHOD_GIFT_CERTIFICATE;
     giftCertificateCode := code;
     amount := if Money_lt orderBalance (getBalance giftCertificate)
               then orderBalance else getBalance giftCertificate |}.

(* ------------------------------------------------------------------ *)
(** ** Applying a credential                                           *)
(* ------------------------------------------------------------------ *)

Definition usd (q : Q) : Money.t := Money.new q "USD".

Definition certificate (code : string) (balance : Q) : GiftCertificate :=
  {| gc_code := code; gc_balance := usd balance;
     gc_recipientEmail := ""; gc_recipientName := ""; gc_senderName := "";
     gc_message := ""; gc_orderNo := "" |}.

(** A basket of 10.00 USD on which a certificate "A" already redeems
    15.00 USD: the stored value exceeds the total. *)
Definition overpaid_basket : Basket :=
  {| paymentInstruments :=
       [{| id := 1; paymentMethod := METHOD_GIFT_CERTIFICATE;
           giftCertificateCode := "A"; amount := usd 15 |}];
     giftCertificateLineItems := [];
     totalGrossPrice := usd 10;
     currencyCode := "USD";
     productQuantityTotal := 1 |}.

(** A basket of 100.00 USD with a card, a certificate "A" redeeming
    30.00 USD and two instruments left over for a certificate "B". *)
Definition mixed_basket : Basket :=
  {| paymentInstruments :=
       [{| id := 1; paymentMethod := METHOD_GIFT_CERTIFICATE;
           giftCertificateCode := "A"; amount := usd 30 |};
        {| id := 2; paymentMethod := METHOD_GIFT_CERTIFICATE;
           giftCertificateCode := "B"; amount := usd 5 |};
        {| id := 3; paymentMethod := "CREDIT_CARD";
           giftCertificateCode := ""; amount := usd 65 |};
        {| id := 4; paymentMethod := METHOD_GIFT_CERTIFICATE;
           giftCertificateCode := "B"; amount := usd 7 |}];
     giftCertificateLineItems := [];
     totalGrossPrice := usd 100;
     currencyCode := "USD";
     productQuantityTotal := 2 |}.

(** The claim on the amount an application redeems, as the
    specification words it: the new instrument carries the minimum of
    the balance and the remaining order balance, and carries zero when
    that remaining balance is negative or zero. *)
Definition redeems_min_and_zero_when_covered (b : Basket) (gc : GiftCertificate) : Prop :=
  let code := getGiftCertificateCode gc in
  exists pi b',
    giftCertHelpers.createGiftCertificatePaymentInstrument gc b = Normal pi b' /\
    paymentInstruments b' = remaining code (paymentInstruments b) ++ [pi] /\
    boundTo code pi = true /\
    (Money.value (amount pi)
       == Qmin (Money.value (getBalance gc)) (orderBalance b code))%Q /\
    ((orderBalance b code <= 0)%Q -> (Money.value (amount pi) == 0)%Q).

(* ------------------------------------------------------------------ *)
(** ** Reconciling the conventional instrument                         *)
(* ------------------------------------------------------------------ *)

(** The amount the balancer writes on the conventional instrument. *)
Definition charge (b : Basket) : Money.t :=
  let openAmount :=
    (Money.value (totalGrossPrice b) - sumRedeemed (paymentInstruments b))%Q in
  if num_le openAmount 0
  then Money.new 0 (Money.currencyCode (totalGrossPrice b))
  else Money.new openAmount (Money.currencyCode (totalGrossPrice b)).

(** A basket of 40.00 USD fully covered by a certificate of 40.00 USD,
    with a card behind it. *)
Definition covered_basket : Basket :=
  {| paymentInstruments :=
       [{| id := 1; paymentMethod := METHOD_GIFT_CERTIFICATE;
           giftCertificateCode := "A"; amount := usd 40 |};
        {| id := 2; paymentMethod := "CREDIT_CARD";
           giftCertificateCode := ""; amount := usd 40 |}];
     giftCertificateLineItems := [];
     totalGrossPrice := usd 40;
     currencyCode := "USD";
     productQuantityTotal := 1 |}.

(** A basket of 40.00 USD paid with certificates only, for 25.00 USD. *)
Definition underpaid_basket : Basket :=
  {| paymentInstruments :=
       [{| id := 1; paymentMethod := METHOD_GIFT_CERTIFICATE;
           giftCertificateCode := "A"; amount := usd 15 |};
        {| id := 2; paymentMethod := METHOD_GIFT_CERTIFICATE;
           giftCertificateCode := "B"; amount := usd 10 |}];
     giftCertificateLineItems := [];
     totalGrossPrice := usd 40;
     currencyCode := "USD";
     productQuantityTotal := 1 |}.

(* ------------------------------------------------------------------ *)
(** ** Placing an order                                                *)
(* ------------------------------------------------------------------ *)

(** The certificate [createGiftCertificateFromLineItem] leaves on the
    platform for a line item, when it is the [n]-th the platform holds. *)
Definition materialize (platform : Platform) (orderNo : string) (n : nat)
    (li : GiftCertificateLineItem) : GiftCertificate :=
  {| gc_code := issued_code platform n;
     gc_balance := Money.new (Money.value (netPrice li)) (site_currency platform);
     gc_recipientEmail := recipientEmail li;
     gc_recipientName := recipientName li;
     gc_senderName := senderName li;
     gc_message := message li;
     gc_orderNo := orderNo |}.

Fixpoint materialize_all (platform : Platform) (orderNo : string) (n : nat)
    (lis : list GiftCertificateLineItem) : list GiftCertificate :=
  match lis with
  | [] => []
  | li :: lis' =>
      materialize platform orderNo n li :: materialize_all platform orderNo (S n) lis'
  end.

(** The platform calls of an issuance and of a notification. *)
Definition issuance (li : GiftCertificateLineItem) : Event :=
  EvCreateGiftCertificate (Money.value (netPrice li)).

Definition notification (platform : Platform) (gc : GiftCertificate) : Event :=
  EvSendEmail
    {| to := gc_recipientEmail gc;
       subject := Resource_msg "resource.ordergcemsg" "email" ++ " " ++ gc_senderName gc;
       email_from := preference_or platform "no-reply@salesforce.com";
       type := orderConfirmation |}
    "mail/giftcert" gc.

(** The certificates whose notification goes out: those before the
    first one whose delivery raises. *)
Fixpoint delivered (platform : Platform) (gcs : list GiftCertificate)
  : list GiftCertificate :=
  match gcs with
  | [] => []
  | gc :: gcs' =>
      if delivery_raises platform gc then [] else gc :: delivered platform gcs'
  end.

Definition all_delivered (platform : Platform) (gcs : list GiftCertificate) : bool :=
  forallb (fun gc => negb (delivery_raises platform gc)) gcs.

Definition all_issued (platform : Platform) (lis : list GiftCertificateLineItem) : bool :=
  forallb (fun li => negb (issuance_raises platform (Money.value (netPrice li)))) lis.

(** The state the [catch] block of a placement leaves: the order is
    marked as failed by [failOrder], in a wrapped transaction of its
    own. *)
Definition failed_after (w : World) : World :=
  {| order := Order.with_status Order.ORDER_STATUS_FAILED (order w);
     giftCertificates := giftCertificates w;
     trace := trace w ++ [EvWrapEnter; EvFailOrder; EvWrapCommit] |}.

(** The order after the statuses of a successful placement are set. *)
Definition placed (fraudDetectionStatus : FraudDetectionStatus) (o : Order.t) : Order.t :=
  Order.with_exportStatus Order.EXPORT_STATUS_READY
    (Order.with_confirmationStatus
       (if String.eqb (fraud_status fraudDetectionStatus) "flag"
        then Order.CONFIRMATION_STATUS_NOTCONFIRMED
        else Order.CONFIRMATION_STATUS_CONFIRMED)
       (Order.with_status Order.ORDER_STATUS_NEW o)).

(** The certificates notified and the amounts issued in a trace. *)
Fixpoint notified (t : list Event) : list GiftCertificate :=
  match t with
  | [] => []
  | EvSendEmail _ _ context :: t' => context :: notified t'
  | _ :: t' => notified t'
  end.

Fixpoint recipients (t : list Event) : list string :=
  match t with
  | [] => []
  | EvSendEmail emailObj _ _ :: t' => to emailObj :: recipients t'
  | _ :: t' => recipients t'
  end.

Fixpoint issued (t : list Event) : list Q :=
  match t with
  | [] => []
  | EvCreateGiftCertificate amount :: t' => amount :: issued t'
  | _ :: t' => issued t'
  end.

(** What a certificate takes from the line item it is made for. *)
Definition materializes (orderNo : string) (li : GiftCertificateLineItem)
    (gc : GiftCertificate) : Prop :=
  Money.value (gc_balance gc) = Money.value (netPrice li) /\
  gc_recipientEmail gc = recipientEmail li /\
  gc_recipientName gc = recipientName li /\
  gc_senderName gc = senderName li /\
  gc_message gc = message li /\
  gc_orderNo gc = orderNo.

(** Two traces are equal once their appends are nested to the right. *)
Ltac trace_eq :=
  cbn [app]; repeat (rewrite <- app_assoc; cbn [app]); reflexivity.

(** An order with two gift-certificate line items, of 25.00 and 10.00
    USD. *)
Definition two_certificates_order : Order.t :=
  {| Order.orderNo := "00000001";
     Order.giftCertificateLineItems :=
       [{| UUID := "li-1"; senderName := "Ann"; recipientName := "Bob";
           recipientEmail := "bob@example.com"; message := "Happy birthday";
           basePrice := usd 25; grossPrice := usd 25; netPrice := usd 25 |};
        {| UUID := "li-2"; senderName := "Ann"; recipientName := "Cid";
           recipientEmail := "cid@example.com"; message := "Thank you";
           basePrice := usd 10; grossPrice := usd 10; netPrice := usd 10 |}];
     Order.status := Order.ORDER_STATUS_CREATED;
     Order.confirmationStatus := Order.CONFIRMATION_STATUS_NOTCONFIRMED;
     Order.exportStatus := Order.EXPORT_STATUS_NOTEXPORTED |}.

Definition before_placement : World :=
  {| order := two_certificates_order; giftCertificates := []; trace := [] |}.

Definition not_flagged : FraudDetectionStatus := {| fraud_status := "success" |}.

(** A platform on which every call succeeds, one whose e-mail transport
    is down, and one whose order management rejects the placement. *)
Definition reliable_platform : Platform :=
  {| placement := inr Status.OK;
     issuance_raises := fun _ => false;
     delivery_raises := fun _ => false;
     issued_code := fun n => String (ascii_of_nat (65 + n)) "";
     site_currency := "USD";
     customerServiceEmail := None |}.

Definition undeliverable_platform : Platform :=
  {| placement := inr Status.OK;
     issuance_raises := fun _ => false;
     delivery_raises := fun _ => true;
     issued_code := fun n => String (ascii_of_nat (65 + n)) "";
     site_currency := "USD";
     customerServiceEmail := None |}.

Definition rejecting_platform : Platform :=
  {| placement := inr Status.ERROR;
     issuance_raises := fun _ => false;
     delivery_raises := fun _ => false;
     issued_code := fun n => String (ascii_of_nat (65 + n)) "";
     site_currency := "USD";
     customerServiceEmail := None |}.

(** The claim on notifications, as the specification words it: when the
    placement call succeeds (and the certificates are issued), every
    notification is dispatched after the commit, and whatever happens to
    a dispatch the result is not an error and the order stays placed. *)
Definition notifies_after_commit_and_never_fails
    (platform : Platform) (fraud : FraudDetectionStatus) (w : World) : Prop :=
  placement platform = inr Status.OK ->
  all_issued platform (Order.giftCertificateLineItems (order w)) = true ->
  exists r w',
    checkoutHelpers.placeOrder platform fraud w = Normal r w' /\
    (forall pre emailObj template context post,
        trace w' = pre ++ EvSendEmail emailObj template context :: post ->
        In EvCommit pre) /\
    error r = false /\
    Order.status (order w') = Order.ORDER_STATUS_NEW.

(** The world after the order of two certificates is placed on the
    reliable platform. *)
Definition after_placement : World :=
  Eval vm_compute in
    match checkoutHelpers.placeOrder reliable_platform not_flagged before_placement with
    | Normal _ w' => w'
    | Throw _ w' => w'
    end.

(* ------------------------------------------------------------------ *)
(** ** Editing a gift-certificate line item                            *)
(* ------------------------------------------------------------------ *)

(** The line item after the seven assignments of [updateGiftCert]. *)
Definition edited (purchaseForm : PurchaseForm) (li : GiftCertificateLineItem)
  : GiftCertificateLineItem :=
  let amount := fvalue (form_amount purchaseForm) in
  {| UUID := UUID li;
     senderName := fvalue (from purchaseForm);
     recipientName := fvalue (recipient purchaseForm);
     recipientEmail := fvalue (form_recipientEmail purchaseForm);
     message := fvalue (form_message purchaseForm);
     basePrice := Money.new amount (Money.currencyCode (basePrice li));
     grossPrice := Money.new amount (Money.currencyCode (grossPrice li));
     netPrice := Money.new amount (Money.currencyCode (netPrice li)) |}.

(** A basket with two gift-certificate line items, and a purchase form
    that edits the second. *)
Definition gift_basket : Basket :=
  {| paymentInstruments := [];
     giftCertificateLineItems :=
       Order.giftCertificateLineItems two_certificates_order;
     totalGrossPrice := usd 35;
     currencyCode := "USD";
     productQuantityTotal := 0 |}.

Definition field {A} (v : A) : FormField A :=
  {| fvalue := v; fvalid := true; ferror := None |}.

Definition edit_second : PurchaseForm :=
  {| from := field "Ann B."%string;
     recipient := field "Cid D."%string;
     form_recipientEmail := field "cid@example.org"%string;
     confirmRecipientEmail := field "cid@example.org"%string;
     form_message := field "Thanks a lot"%string;
     form_amount := field (125 # 10);
     lineItemId := field "li-2"%string |}.

(* ------------------------------------------------------------------ *)
(** ** Validating the purchase form                                    *)
(* ------------------------------------------------------------------ *)

(** The two checks of [processAddToBasket]. *)
Definition email_mismatch (form : GiftCertForm) : bool :=
  negb (String.eqb
          (toLowerCase (fvalue (form_recipientEmail (purchase form))))
          (toLowerCase (fvalue (confirmRecipientEmail (purchase form))))).

Definition amount_out_of_range (form : GiftCertForm) : bool :=
  fvalid (form_amount (purchase form))
  && (num_lt (fvalue (form_amount (purchase form))) 5
      || num_gt (fvalue (form_amount (purchase form))) 5000).

(** A purchase form whose two e-mail fields differ in letter case only,
    with an amount in range. *)
Definition case_form : GiftCertForm :=
  {| purchase :=
       {| from := field "Ann"%string;
          recipient := field "Bob"%string;
          form_recipientEmail := field "Bob@Example.COM"%string;
          confirmRecipientEmail := field "bob@example.com"%string;
          form_message := field "Hi"%string;
          form_amount := field 50;
          lineItemId := field ""%string |};
     valid := true |}.

(** The same form with an amount of 4.99. *)
Definition small_form : GiftCertForm :=
  {| purchase :=
       {| from := field "Ann"%string;
          recipient := field "Bob"%string;
          form_recipientEmail := field "Bob@Example.COM"%string;
          confirmRecipientEmail := field "bob@example.com"%string;
          form_message := field "Hi"%string;
          form_amount := field (499 # 100);
          lineItemId := field ""%string |};
     valid := true |}.

(* ------------------------------------------------------------------ *)
(** ** Further sample data                                             *)
(* ------------------------------------------------------------------ *)

(** A basket of 40.00 USD with a card and, behind it, a certificate
    whose redemption is in another currency. *)
Definition foreign_basket : Basket :=
  {| paymentInstruments :=
       [{| id := 1; paymentMethod := "CREDIT_CARD";
           giftCertificateCode := ""; amount := usd 40 |};
        {| id := 2; paymentMethod := METHOD_GIFT_CERTIFICATE;
           giftCertificateCode := "A"; amount := Money.new 10 "EUR" |}];
     giftCertificateLineItems := [];
     totalGrossPrice := usd 40;
     currencyCode := "USD";
     productQuantityTotal := 1 |}.

(** A platform on which the certificate of 10.00 cannot be issued, and
    one whose placement call raises. *)
Definition ten_refusing_platform : Platform :=
  {| placement := inr Status.OK;
     issuance_raises := fun amount => Qeq_bool amount 10;
     delivery_raises := fun _ => false;
     issued_code := fun n => String (ascii_of_nat (65 + n)) "";
     site_currency := "USD";
     customerServiceEmail := Some "service@example.com"%string |}.

Definition raising_platform : Platform :=
  {| placement := inl (PlatformFailure "placeOrder");
     issuance_raises := fun _ => false;
     delivery_raises := fun _ => false;
     issued_code := fun n => String (ascii_of_nat (65 + n)) "";
     site_currency := "USD";
     customerServiceEmail := None |}.

Definition flagged : FraudDetectionStatus := {| fraud_status := "flag" |}.

(** The line item [createGiftCert] leaves on a basket. *)
Definition requested (newUUID : string) (purchaseForm : PurchaseForm) (cur : string)
  : GiftCertificateLineItem :=
  let amount := fvalue (form_amount purchaseForm) in
  {| UUID := newUUID;
     senderName := fvalue (from purchaseForm);
     recipientName := fvalue (recipient purchaseForm);
     recipientEmail := fvalue (form_recipientEmail purchaseForm);
     message := fvalue (form_message purchaseForm);
     basePrice := Money.new amount cur;
     grossPrice := Money.new amount cur;
     netPrice := Money.new amount cur |}.

(** The e-mail [sendGiftCertificateEmail] builds for a certificate. *)
Definition envelope (platform : Platform) (gc : GiftCertificate) : EmailObj :=
  {| to := gc_recipientEmail gc;
     subject := Resource_msg "resource.ordergcemsg" "email" ++ " " ++ gc_senderName gc;
     email_from := preference_or platform "no-reply@salesforce.com";
     type := orderConfirmation |}.

(** A purchase form that edits the line item "li-3". *)
Definition edit_third : PurchaseForm :=
  {| from := field "Dee"%string;
     recipient := field "Eve"%string;
     form_recipientEmail := field "eve@example.org"%string;
     confirmRecipientEmail := field "eve@example.org"%string;
     form_message := field "Welcome"%string;
     form_amount := field 75;
     lineItemId := field "li-3"%string |}.

(* ================================================================== *)
(** * Lemmas and theorems                                              *)
(* ================================================================== *)

Lemma set_paymentInstruments_same b : set_paymentInstruments (paymentInstruments b) b = b.
Proof. destruct b; reflexivity. Qed.

Lemma filter_all {A} (l : list A) : filter (fun _ => true) l = l.
Proof. induction l; simpl; congruence. Qed.

Lemma filter_filter {A} (P R : A -> bool) l :
  filter P (filter R l) = filter (fun x => R x && P x) l.
Proof.
  induction l as [|x l IH]; simpl; [reflexivity|].
  destruct (R x); simpl; [destruct (P x)|]; rewrite IH; reflexivity.
Qed.

(** The removal loop: every instrument whose identity occurs in the
    snapshot is gone, the others stay, in their order. *)
Lemma forEach_remove snapshot : forall b,
  forEach (fun existingPI => removePaymentInstrument existingPI) snapshot b =
  Normal tt (set_paymentInstruments
               (filter (fun p => negb (has_id (id p) snapshot)) (paymentInstruments b)) b).
Proof.
  induction snapshot as [|x snapshot IH]; intro b; simpl.
  - unfold ret. rewrite filter_all, set_paymentInstruments_same. reflexivity.
  - unfold bind, removePaymentInstrument, modify. rewrite IH. simpl.
    rewrite filter_filter. f_equal. unfold set_paymentInstruments; simpl. f_equal.
    apply filter_ext. intro p. rewrite negb_orb.
    rewrite (Nat.eqb_sym (id x) (id p)). reflexivity.
Qed.

Lemma id_injective l : NoDup (map id l) ->
  forall p q, In p l -> In q l -> id p = id q -> p = q.
Proof.
  induction l as [|x l IH]; simpl; intros ND p q Hp Hq E; [contradiction|].
  inversion ND as [|? ? Hx ND']; subst.
  destruct Hp as [<-|Hp], Hq as [<-|Hq]; auto.
  - exfalso. apply Hx. rewrite E. now apply in_map.
  - exfalso. apply Hx. rewrite <- E. now apply in_map.
Qed.

Lemma has_id_filter P l : NoDup (map id l) ->
  forall p, In p l -> has_id (id p) (filter P l) = P p.
Proof.
  intros ND p Hp. unfold has_id.
  destruct (P p) eqn:HP.
  - apply existsb_exists. exists p. split; [now apply filter_In|apply Nat.eqb_refl].
  - apply not_true_is_false. intro H. apply existsb_exists in H.
    destruct H as (q & Hq & E). apply filter_In in Hq. destruct Hq as [Hq HPq].
    apply Nat.eqb_eq in E. assert (q = p) by (eapply id_injective; eauto).
    subst. congruence.
Qed.

(** On distinct objects, removing the snapshot of the instruments bound
    to a code leaves exactly the instruments not bound to it. *)
Lemma remove_bound code b : distinct_instruments b ->
  forEach (fun existingPI => removePaymentInstrument existingPI)
          (getGiftCertificatePaymentInstruments (Some code) b) b =
  Normal tt (set_paymentInstruments (remaining code (paymentInstruments b)) b).
Proof.
  intro ND. rewrite forEach_remove. do 2 f_equal.
  apply filter_ext_in. intros p Hp. simpl.
  now rewrite has_id_filter.
Qed.

(** The summing loop. *)
Lemma sum_loop {St : Type} cur l : forall q (s : St),
  Forall (fun pi => Money.currencyCode (amount pi) = cur) l ->
  foldM (fun giftCertTotal orderPI => lift (Money.add giftCertTotal (amount orderPI)))
        (Money.new q cur) l s =
  Normal (Money.new (fold_left (fun acc pi => (acc + Money.value (amount pi))%Q) l q) cur) s.
Proof.
  induction l as [|x l IH]; intros q s HF; simpl; [reflexivity|].
  inversion_clear HF as [|? ? Hx HF'].
  unfold bind, Money.add. simpl. rewrite Hx, String.eqb_refl. simpl.
  now rewrite IH.
Qed.

Lemma in_currency_filter cur l :
  in_currency cur l ->
  Forall (fun pi => Money.currencyCode (amount pi) = cur) (filter isGiftCertificate l).
Proof.
  unfold in_currency. rewrite !Forall_forall. intros H x Hx.
  apply filter_In in Hx. destruct Hx. auto.
Qed.

Lemma in_currency_remaining cur code l :
  in_currency cur l -> in_currency cur (remaining code l).
Proof.
  unfold in_currency, remaining. rewrite !Forall_forall. intros H x Hx.
  apply filter_In in Hx. destruct Hx. auto.
Qed.

Lemma sum_redeemed_loop cur (b : Basket) l :
  in_currency cur l ->
  foldM (fun giftCertTotal orderPI => lift (Money.add giftCertTotal (amount orderPI)))
        (Money.new 0 cur) (filter isGiftCertificate l) b =
  Normal (Money.new (sumRedeemed l) cur) b.
Proof. intro H. apply sum_loop. now apply in_currency_filter. Qed.

Lemma create_run b giftCertificate :
  let code := getGiftCertificateCode giftCertificate in
  distinct_instruments b ->
  Money.currencyCode (totalGrossPrice b) = currencyCode b ->
  in_currency (currencyCode b) (remaining code (paymentInstruments b)) ->
  giftCertHelpers.createGiftCertificatePaymentInstrument giftCertificate b =
  Normal (redemption b giftCertificate)
         (set_paymentInstruments
            (remaining code (paymentInstruments b) ++ [redemption b giftCertificate]) b).
Proof.
  intros code ND Hcur HF.
  unfold giftCertHelpers.createGiftCertificatePaymentInstrument.
  unfold bind at 1. unfold gets at 1.
  unfold bind at 1. fold code. rewrite remove_bound by assumption.
  unfold bind at 1. unfold gets at 1.
  unfold bind at 1. unfold gets at 1.
  unfold bind at 1. unfold gets at 1.
  unfold bind at 1.
  unfold getGiftCertificatePaymentInstruments, getCurrencyCode. simpl.
  rewrite (sum_redeemed_loop _ (set_paymentInstruments (remaining code (paymentInstruments b)) b) _ HF).
  unfold bind, getTotalGrossPrice, Money.subtract, lift. simpl.
  rewrite Hcur, String.eqb_refl. simpl.
  unfold Basket_createGiftCertificatePaymentInstrument, redemption. simpl.
  fold code. rewrite Hcur. reflexivity.
Qed.

Lemma num_lt_spec x y : num_lt x y = true <-> (x < y)%Q.
Proof.
  unfold num_lt. rewrite Qlt_alt. destruct (x ?= y)%Q; split; congruence.
Qed.

Lemma num_le_spec x y : num_le x y = true <-> (x <= y)%Q.
Proof. apply Qle_bool_iff. Qed.

Lemma num_ge_spec x y : num_ge x y = true <-> (y <= x)%Q.
Proof. apply Qle_bool_iff. Qed.

Lemma redemption_bound b gc :
  boundTo (getGiftCertificateCode gc) (redemption b gc) = true.
Proof.
  unfold boundTo, isGiftCertificate, redemption; simpl.
  now rewrite String.eqb_refl.
Qed.

Lemma redemption_min b gc :
  (Money.value (amount (redemption b gc)) ==
   Qmin (Money.value (getBalance gc)) (orderBalance b (getGiftCertificateCode gc)))%Q.
Proof.
  unfold redemption, orderBalance, Money_lt; simpl.
  destruct (num_lt _ _) eqn:E; simpl.
  - apply num_lt_spec in E. symmetry. apply Q.min_r. now apply Qlt_le_weak.
  - symmetry. apply Q.min_l. apply Qnot_lt_le. intro H.
    apply num_lt_spec in H. simpl in H. congruence.
Qed.

Lemma fresh_id_fresh l : ~ In (fresh_id l) (map id l).
Proof.
  unfold fresh_id. intro H.
  assert (Hle : (fresh_id l <= list_max (map id l))%nat).
  { pose proof (proj1 (list_max_le (map id l) (list_max (map id l))) (le_n _)) as HF.
    rewrite Forall_forall in HF. now apply HF. }
  unfold fresh_id in Hle. lia.
Qed.

Lemma NoDup_map_filter {A B} (f : A -> B) P l :
  NoDup (map f l) -> NoDup (map f (filter P l)).
Proof.
  induction l as [|x l IH]; simpl; intro ND; [constructor|].
  inversion_clear ND as [|? ? Hx ND'].
  destruct (P x); simpl; auto.
  constructor; auto. intro H. apply Hx.
  apply in_map_iff in H. destruct H as (y & <- & Hy).
  apply filter_In in Hy. now apply in_map.
Qed.

Lemma remaining_idempotent code l :
  remaining code (remaining code l) = remaining code l.
Proof.
  unfold remaining. rewrite filter_filter. apply filter_ext.
  intro x. now destruct (boundTo code x).
Qed.

Lemma bound_remaining code l : filter (boundTo code) (remaining code l) = [].
Proof.
  unfold remaining. rewrite filter_filter.
  induction l as [|x l IH]; simpl; [reflexivity|].
  destruct (boundTo code x); simpl; auto.
Qed.

(** Distinctness of the instruments is an invariant of applying a
    credential. *)
Lemma distinct_after_create b gc :
  distinct_instruments b ->
  distinct_instruments
    (set_paymentInstruments
       (remaining (getGiftCertificateCode gc) (paymentInstruments b) ++ [redemption b gc]) b).
Proof.
  unfold distinct_instruments; simpl. intro ND.
  rewrite map_app. simpl.
  apply NoDup_app.
  - now apply NoDup_map_filter.
  - constructor; [intros []|constructor].
  - intros a Ha [<-|[]]. now apply fresh_id_fresh in Ha.
Qed.

(** What an application does, on a basket of distinct instruments in
    one currency. *)
Lemma create_on_wellformed b gc :
  distinct_instruments b -> single_currency b ->
  giftCertHelpers.createGiftCertificatePaymentInstrument gc b =
  Normal (redemption b gc)
         (set_paymentInstruments
            (remaining (getGiftCertificateCode gc) (paymentInstruments b)
               ++ [redemption b gc]) b).
Proof.
  intros ND [Hcur HF]. apply create_run; auto.
  now apply in_currency_remaining.
Qed.

Lemma remaining_after_create code l pi :
  boundTo code pi = true ->
  remaining code (remaining code l ++ [pi]) = remaining code l.
Proof.
  intro Hb. unfold remaining at 1. rewrite filter_app. simpl. rewrite Hb. simpl.
  rewrite app_nil_r. apply remaining_idempotent.
Qed.

(** A second application of the same credential recreates the
    instrument of the first. *)
Lemma create_twice b gc :
  distinct_instruments b -> single_currency b ->
  let b1 := set_paymentInstruments
              (remaining (getGiftCertificateCode gc) (paymentInstruments b)
                 ++ [redemption b gc]) b in
  giftCertHelpers.createGiftCertificatePaymentInstrument gc b1 =
  Normal (redemption b gc) b1.
Proof.
  intros ND [Hcur HF] b1.
  assert (HR : remaining (getGiftCertificateCode gc) (paymentInstruments b1) =
               remaining (getGiftCertificateCode gc) (paymentInstruments b)).
  { apply remaining_after_create, redemption_bound. }
  assert (E : redemption b1 gc = redemption b gc).
  { unfold redemption. rewrite HR. reflexivity. }
  rewrite create_run.
  - rewrite E, HR. reflexivity.
  - now apply distinct_after_create.
  - exact Hcur.
  - rewrite HR. simpl. now apply in_currency_remaining.
Qed.

(* ------------------------------------------------------------------ *)
(** ** Applying a credential                                           *)
(* ------------------------------------------------------------------ *)

(** C1, as stated, fails: on a basket of 10.00 whose other certificate
    already redeems 15.00, applying a certificate with balance 20.00
    creates an instrument of -5.00, not of zero. *)
Lemma createGiftCertificatePaymentInstrument_negative_amount :
  ~ redeems_min_and_zero_when_covered overpaid_basket (certificate "B" 20).
Proof.
  intros (pi & b' & Hrun & _ & _ & _ & Hzero).
  vm_compute in Hrun. injection Hrun as <- _.
  assert (H : (orderBalance overpaid_basket "B" <= 0)%Q) by (vm_compute; discriminate).
  apply Hzero in H. vm_compute in H. discriminate.
Qed.

(** C1, amended: on a basket of distinct instruments in one currency,
    applying a credential attaches exactly one new stored-value
    instrument, bound to the credential's code, after the instruments
    left by step 1; its amount is min(balance, remaining order balance),
    where the remaining order balance is the order total minus the
    redemptions of the instruments left by step 1.  The application is
    never rejected: a remaining order balance that is negative or zero
    and not above the credential's balance is itself the amount of the
    new instrument, zero when it is zero and negative when it is
    negative. *)
Theorem createGiftCertificatePaymentInstrument_redeems_min b gc :
  distinct_instruments b -> single_currency b ->
  let code := getGiftCertificateCode gc in
  exists pi b',
    giftCertHelpers.createGiftCertificatePaymentInstrument gc b = Normal pi b' /\
    paymentInstruments b' = remaining code (paymentInstruments b) ++ [pi] /\
    boundTo code pi = true /\
    (Money.value (amount pi)
       == Qmin (Money.value (getBalance gc)) (orderBalance b code))%Q /\
    ((orderBalance b code <= 0)%Q ->
     (orderBalance b code <= Money.value (getBalance gc))%Q ->
     (Money.value (amount pi) == orderBalance b code)%Q).
Proof.
  intros ND SC code.
  exists (redemption b gc). eexists.
  split; [now apply create_on_wellformed|].
  split; [reflexivity|].
  split; [apply redemption_bound|].
  split; [apply redemption_min|].
  intros _ Hle. rewrite redemption_min. now apply Q.min_r.
Qed.

Lemma createGiftCertificatePaymentInstrument_redeems_min_witness :
  distinct_instruments overpaid_basket /\ single_currency overpaid_basket /\
  exists pi b',
    giftCertHelpers.createGiftCertificatePaymentInstrument (certificate "B" 20)
      overpaid_basket = Normal pi b' /\
    paymentInstruments b' = remaining "B" (paymentInstruments overpaid_basket) ++ [pi] /\
    boundTo "B" pi = true /\
    (Money.value (amount pi) == Qmin 20 (orderBalance overpaid_basket "B"))%Q /\
    ((orderBalance overpaid_basket "B" <= 0)%Q ->
     (orderBalance overpaid_basket "B" <= 20)%Q ->
     (Money.value (amount pi) == orderBalance overpaid_basket "B")%Q).
Proof.
  assert (ND : distinct_instruments overpaid_basket).
  { unfold distinct_instruments; simpl.
    repeat constructor; simpl; intuition discriminate. }
  assert (SC : single_currency overpaid_basket).
  { split; [reflexivity|repeat constructor]. }
  split; [exact ND|]. split; [exact SC|].
  exact (createGiftCertificatePaymentInstrument_redeems_min
           overpaid_basket (certificate "B" 20) ND SC).
Defined.

(** C4: applying the same credential twice leaves exactly one
    stored-value instrument bound to the credential's code, with the
    amount a single application gives it; the instruments not bound to
    the code are those a single application leaves. *)
Theorem createGiftCertificatePaymentInstrument_idempotent b gc :
  distinct_instruments b -> single_currency b ->
  let code := getGiftCertificateCode gc in
  exists pi1 b1 pi2 b2,
    giftCertHelpers.createGiftCertificatePaymentInstrument gc b = Normal pi1 b1 /\
    giftCertHelpers.createGiftCertificatePaymentInstrument gc b1 = Normal pi2 b2 /\
    filter (boundTo code) (paymentInstruments b1) = [pi1] /\
    filter (boundTo code) (paymentInstruments b2) = [pi2] /\
    amount pi2 = amount pi1 /\
    remaining code (paymentInstruments b2) = remaining code (paymentInstruments b1).
Proof.
  intros ND SC code.
  pose proof (create_on_wellformed b gc ND SC) as H1.
  pose proof (create_twice b gc ND SC) as H2. cbv zeta in H2.
  do 4 eexists.
  split; [exact H1|]. split; [exact H2|].
  assert (HB : filter (boundTo code)
                 (paymentInstruments
                    (set_paymentInstruments
                       (remaining code (paymentInstruments b) ++ [redemption b gc]) b))
               = [redemption b gc]).
  { simpl. rewrite filter_app, bound_remaining. simpl.
    unfold code. now rewrite redemption_bound. }
  repeat split; assumption || reflexivity.
Qed.

Lemma createGiftCertificatePaymentInstrument_idempotent_witness :
  distinct_instruments mixed_basket /\ single_currency mixed_basket /\
  exists pi1 b1 pi2 b2,
    giftCertHelpers.createGiftCertificatePaymentInstrument (certificate "B" 50)
      mixed_basket = Normal pi1 b1 /\
    giftCertHelpers.createGiftCertificatePaymentInstrument (certificate "B" 50)
      b1 = Normal pi2 b2 /\
    filter (boundTo "B") (paymentInstruments b1) = [pi1] /\
    filter (boundTo "B") (paymentInstruments b2) = [pi2] /\
    amount pi2 = amount pi1 /\
    remaining "B" (paymentInstruments b2) = remaining "B" (paymentInstruments b1).
Proof.
  assert (ND : distinct_instruments mixed_basket).
  { unfold distinct_instruments; simpl.
    repeat constructor; simpl; intuition discriminate. }
  assert (SC : single_currency mixed_basket).
  { split; [reflexivity|repeat constructor]. }
  split; [exact ND|]. split; [exact SC|].
  exact (createGiftCertificatePaymentInstrument_idempotent
           mixed_basket (certificate "B" 50) ND SC).
Defined.

(* ------------------------------------------------------------------ *)
(** ** Reconciling the conventional instrument                         *)
(* ------------------------------------------------------------------ *)

Lemma filter_keeps_all {A} (P : A -> bool) l :
  Forall (fun x => P x = true) l -> filter P l = l.
Proof.
  induction 1 as [|x l Hx _ IH]; simpl; [reflexivity|].
  now rewrite Hx, IH.
Qed.

(** The locating loop passes a prefix of stored-value instruments,
    adding their amounts up. *)
Lemma locate_prefix cur b pre : forall rest pos q,
  Forall (fun pi => isGiftCertificate pi = true) pre ->
  in_currency cur pre ->
  checkoutHelpers.locate (pre ++ rest) pos (Money.new q cur) b =
  checkoutHelpers.locate rest (pos + List.length pre)
    (Money.new (fold_left (fun acc pi => (acc + Money.value (amount pi))%Q) pre q) cur) b.
Proof.
  induction pre as [|x pre IH]; intros rest pos q HG HC; simpl.
  - now rewrite Nat.add_0_r.
  - inversion_clear HG as [|? ? Hx HG']. inversion_clear HC as [|? ? Hc HC'].
    rewrite Hx. unfold bind at 1. unfold Money.add. simpl.
    rewrite (Hc Hx), String.eqb_refl. simpl.
    rewrite IH by assumption. f_equal. lia.
Qed.

Lemma in_currency_app cur l1 l2 :
  in_currency cur (l1 ++ l2) -> in_currency cur l1 /\ in_currency cur l2.
Proof. unfold in_currency. apply Forall_app. Qed.

(** The open amount the balancer computes from the whole basket. *)
Lemma getNonGiftCertificateAmount_run b :
  single_currency b ->
  checkoutHelpers.getNonGiftCertificateAmount b =
  Normal (Money.new (Money.value (totalGrossPrice b) - sumRedeemed (paymentInstruments b))
                    (Money.currencyCode (totalGrossPrice b))) b.
Proof.
  intros [Hcur HF]. unfold checkoutHelpers.getNonGiftCertificateAmount.
  unfold bind at 1. unfold gets at 1.
  unfold bind at 1. unfold gets at 1.
  unfold bind at 1. unfold getGiftCertificatePaymentInstruments, getCurrencyCode.
  rewrite (sum_redeemed_loop _ b _ HF).
  unfold bind, gets, getTotalGrossPrice, Money.subtract, lift, ret. simpl.
  now rewrite Hcur, String.eqb_refl.
Qed.

Lemma update_nth_app {A} (f : A -> A) pre x post :
  update_nth (List.length pre) f (pre ++ x :: post) = pre ++ f x :: post.
Proof. induction pre as [|y pre IH]; simpl; [reflexivity|]. now rewrite IH. Qed.

(** C5: on a basket that holds no conventional instrument (and whose
    stored-value amounts are in the basket's currency), the balancer
    returns [{error: false}] if and only if the summed stored-value
    redemptions reach the order total, and [{error: true}] otherwise; in
    either case the basket, with all its instruments, is left as it
    was. *)
Theorem calculatePaymentTransaction_without_conventional b :
  Forall (fun pi => isGiftCertificate pi = true) (paymentInstruments b) ->
  in_currency (currencyCode b) (paymentInstruments b) ->
  exists r,
    checkoutHelpers.calculatePaymentTransaction b = Normal r b /\
    (error r = false <->
     (Money.value (totalGrossPrice b) <= sumRedeemed (paymentInstruments b))%Q) /\
    (error r = true <->
     (sumRedeemed (paymentInstruments b) < Money.value (totalGrossPrice b))%Q).
Proof.
  intros HG HC.
  unfold checkoutHelpers.calculatePaymentTransaction.
  unfold bind at 1. unfold gets at 1.
  unfold bind at 1. unfold gets at 1.
  unfold bind at 1. unfold getPaymentInstruments, getCurrencyCode.
  pose proof (locate_prefix (currencyCode b) b (paymentInstruments b) [] 0 0%Q HG HC)
    as HLoc.
  rewrite app_nil_r in HLoc. rewrite HLoc. simpl.
  unfold bind, gets, ret. simpl.
  assert (ES : fold_left (fun acc pi => (acc + Money.value (amount pi))%Q)
                 (paymentInstruments b) 0%Q = sumRedeemed (paymentInstruments b)).
  { unfold sumRedeemed. now rewrite filter_keeps_all. }
  rewrite ES.
  destruct (num_ge _ _) eqn:E.
  - apply num_ge_spec in E. eexists. split; [reflexivity|]. simpl. split; split; auto.
    + discriminate.
    + intro H. exfalso. eapply Qlt_not_le; eauto.
  - eexists. split; [reflexivity|]. simpl.
    assert (N : ~ (Money.value (totalGrossPrice b)
                     <= sumRedeemed (paymentInstruments b))%Q).
    { intro H. apply num_ge_spec in H. congruence. }
    split; split; auto.
    + discriminate.
    + intro H. contradiction.
    + intros _. now apply Qnot_le_lt.
Qed.

(** C6: on a basket (in one currency) whose first conventional
    instrument is [target], the balancer succeeds and sets the amount of
    [target] to the order total minus the stored-value total of the
    basket when that difference is positive and to zero Money when it is
    not; [target] stays in its place with its other fields, and every
    other instrument of the basket is left as it was. *)
Theorem calculatePaymentTransaction_sets_open_amount b pre target post :
  paymentInstruments b = pre ++ target :: post ->
  Forall (fun pi => isGiftCertificate pi = true) pre ->
  isGiftCertificate target = false ->
  single_currency b ->
  let openAmount :=
    (Money.value (totalGrossPrice b) - sumRedeemed (paymentInstruments b))%Q in
  let cur := Money.currencyCode (totalGrossPrice b) in
  checkoutHelpers.calculatePaymentTransaction b =
    Normal {| error := false |}
           (set_paymentInstruments (pre ++ with_amount (charge b) target :: post) b) /\
  ((0 < openAmount)%Q -> charge b = Money.new openAmount cur) /\
  ((openAmount <= 0)%Q -> charge b = Money.new 0 cur).
Proof.
  intros HL HG HT SC openAmount cur.
  split; [|split].
  - pose proof SC as [Hcur HC].
    unfold checkoutHelpers.calculatePaymentTransaction.
    unfold bind at 1. unfold gets at 1.
    unfold bind at 1. unfold gets at 1.
    unfold bind at 1. unfold getPaymentInstruments, getCurrencyCode.
    rewrite HL. rewrite HL in HC. apply in_currency_app in HC. destruct HC as [HC _].
    rewrite locate_prefix by assumption. simpl. rewrite HT.
    unfold ret at 1. unfold bind at 1. unfold gets at 1.
    unfold try_catch, bind at 1, Transaction_wrap. simpl.
    unfold bind at 1.
    rewrite getNonGiftCertificateAmount_run by exact SC.
    unfold charge, Money.getCurrencyCode. simpl.
    destruct (num_le _ 0); unfold setAmount, modify, ret; simpl;
      rewrite HL, update_nth_app; reflexivity.
  - intro Hpos. unfold charge. fold openAmount cur.
    destruct (num_le openAmount 0) eqn:E; [|reflexivity].
    apply num_le_spec in E. exfalso. eapply Qlt_not_le; eauto.
  - intro Hle. unfold charge. fold openAmount cur.
    apply num_le_spec in Hle. now rewrite Hle.
Qed.

Lemma calculatePaymentTransaction_sets_open_amount_witness :
  let pre := [{| id := 1; paymentMethod := METHOD_GIFT_CERTIFICATE;
                 giftCertificateCode := "A"; amount := usd 40 |}] in
  let target := {| id := 2; paymentMethod := "CREDIT_CARD";
                   giftCertificateCode := ""; amount := usd 40 |} in
  checkoutHelpers.calculatePaymentTransaction covered_basket =
    Normal {| error := false |}
           (set_paymentInstruments
              (pre ++ [with_amount (charge covered_basket) target]) covered_basket) /\
  ((0 < 40 - sumRedeemed (paymentInstruments covered_basket))%Q ->
   charge covered_basket
   = Money.new (40 - sumRedeemed (paymentInstruments covered_basket)) "USD") /\
  ((40 - sumRedeemed (paymentInstruments covered_basket) <= 0)%Q ->
   charge covered_basket = Money.new 0 "USD").
Proof.
  intros pre target.
  apply (calculatePaymentTransaction_sets_open_amount covered_basket pre target []).
  - reflexivity.
  - repeat constructor.
  - reflexivity.
  - split; [reflexivity|repeat constructor].
Defined.

Lemma calculatePaymentTransaction_without_conventional_witness :
  exists r,
    checkoutHelpers.calculatePaymentTransaction underpaid_basket
      = Normal r underpaid_basket /\
    (error r = false <->
     (40 <= sumRedeemed (paymentInstruments underpaid_basket))%Q) /\
    (error r = true <->
     (sumRedeemed (paymentInstruments underpaid_basket) < 40)%Q).
Proof.
  apply (calculatePaymentTransaction_without_conventional underpaid_basket).
  - repeat constructor.
  - repeat constructor.
Defined.

(* ------------------------------------------------------------------ *)
(** ** Placing an order                                                *)
(* ------------------------------------------------------------------ *)

Lemma update_nth_last {A} (f : A -> A) l x :
  update_nth (List.length l) f (l ++ [x]) = l ++ [f x].
Proof. apply update_nth_app. Qed.

Lemma createGiftCertificateFromLineItem_run platform li orderNo w :
  issuance_raises platform (Money.value (netPrice li)) = false ->
  giftCertHelpers.createGiftCertificateFromLineItem platform li orderNo w =
  Normal (List.length (giftCertificates w))
    {| order := order w;
       giftCertificates :=
         giftCertificates w
           ++ [materialize platform orderNo (List.length (giftCertificates w)) li];
       trace := trace w ++ [issuance li] |}.
Proof.
  intro Hok.
  unfold giftCertHelpers.createGiftCertificateFromLineItem,
    GiftCertificateMgr_createGiftCertificate.
  unfold bind at 1. rewrite Hok.
  cbv [bind gets modify ret setRecipientEmail setRecipientName setSenderName
       setMessage setOrderNo on_giftCertificates emit order giftCertificates trace].
  rewrite !update_nth_last. reflexivity.
Qed.

Lemma createGiftCertificateFromLineItem_raise platform li orderNo w :
  issuance_raises platform (Money.value (netPrice li)) = true ->
  giftCertHelpers.createGiftCertificateFromLineItem platform li orderNo w =
  Throw (PlatformFailure "createGiftCertificate") w.
Proof.
  intro Hr.
  unfold giftCertHelpers.createGiftCertificateFromLineItem,
    GiftCertificateMgr_createGiftCertificate.
  unfold bind at 1. now rewrite Hr.
Qed.

(** The [map] step of a placement, when every issuance succeeds. *)
Lemma materialize_loop platform lis : forall w,
  all_issued platform lis = true ->
  mapM (fun lineItem =>
          orderNo <- gets (fun w => Order.orderNo (order w)) ;;
          giftCertHelpers.createGiftCertificateFromLineItem platform lineItem orderNo)
       lis w =
  Normal (seq (List.length (giftCertificates w)) (List.length lis))
    {| order := order w;
       giftCertificates :=
         giftCertificates w
           ++ materialize_all platform (Order.orderNo (order w))
                (List.length (giftCertificates w)) lis;
       trace := trace w ++ map issuance lis |}.
Proof.
  induction lis as [|li lis IH]; intros w Hall; simpl.
  - unfold ret. rewrite !app_nil_r. destruct w; reflexivity.
  - simpl in Hall. apply andb_true_iff in Hall. destruct Hall as [Hli Hall].
    apply negb_true_iff in Hli.
    unfold bind at 1. unfold bind at 1. unfold gets at 1.
    rewrite createGiftCertificateFromLineItem_run by assumption.
    unfold bind at 1. rewrite IH by assumption. simpl.
    unfold ret. rewrite !length_app. simpl. rewrite Nat.add_1_r.
    rewrite <- !app_assoc. reflexivity.
Qed.

(** ... and when one of them raises. *)
Lemma materialize_loop_raise platform lis : forall w,
  all_issued platform lis = false ->
  exists e w',
    mapM (fun lineItem =>
            orderNo <- gets (fun w => Order.orderNo (order w)) ;;
            giftCertHelpers.createGiftCertificateFromLineItem platform lineItem orderNo)
         lis w = Throw e w'.
Proof.
  induction lis as [|li lis IH]; intros w Hall; simpl in *; [discriminate|].
  unfold bind at 1. unfold bind at 1. unfold gets at 1.
  destruct (issuance_raises platform (Money.value (netPrice li))) eqn:Hli.
  - rewrite createGiftCertificateFromLineItem_raise by assumption. eauto.
  - rewrite createGiftCertificateFromLineItem_run by assumption.
    simpl in Hall. unfold bind at 1.
    match goal with
    | |- context [mapM ?f lis ?w1] => destruct (IH w1 Hall) as (e & w' & ->)
    end.
    eauto.
Qed.

(** The [forEach] step of a placement: the notifications go out in the
    order of the certificates, up to the first delivery that raises. *)
Lemma notify_loop platform gcs : forall held w,
  giftCertificates w = held ++ gcs ->
  forEach (giftCertHelpers.sendGiftCertificateEmail platform)
          (seq (List.length held) (List.length gcs)) w =
  let w' := {| order := order w; giftCertificates := giftCertificates w;
               trace := trace w ++ map (notification platform)
                                       (delivered platform gcs) |} in
  if all_delivered platform gcs
  then Normal tt w'
  else Throw (PlatformFailure "sendEmail") w'.
Proof.
  induction gcs as [|gc gcs IH]; intros held w Hw; simpl.
  - unfold ret. rewrite app_nil_r. destruct w; reflexivity.
  - unfold bind at 1. unfold giftCertHelpers.sendGiftCertificateEmail at 1.
    unfold bind at 1. unfold deref at 1.
    rewrite Hw, nth_error_app2, Nat.sub_diag by lia. cbn [nth_error].
    unfold emailHelpers_sendEmail.
    fold (notification platform gc).
    destruct (delivery_raises platform gc) eqn:Hd; cbn [negb andb map].
    + unfold throw. rewrite app_nil_r, <- Hw. destruct w; reflexivity.
    + unfold modify at 1.
      pose proof (IH (held ++ [gc]) (emit (notification platform gc) w)) as IH'.
      rewrite length_app, Nat.add_1_r in IH'.
      change (EvSendEmail _ _ gc) with (notification platform gc).
      rewrite IH' by (cbn [emit giftCertificates]; rewrite Hw, <- app_assoc; reflexivity).
      cbn [emit order giftCertificates trace]. rewrite <- app_assoc, <- Hw. reflexivity.
Qed.

Lemma placeOrder_not_placed platform fraud w :
  placement platform <> inr Status.OK ->
  checkoutHelpers.placeOrder platform fraud w =
  Normal {| error := true |}
         (failed_after {| order := order w; giftCertificates := giftCertificates w;
                          trace := trace w ++ [EvBegin; EvPlaceOrder] |}).
Proof.
  intro Hp.
  unfold checkoutHelpers.placeOrder, try_catch.
  unfold bind at 1. unfold Transaction_begin at 1, modify at 1.
  unfold bind at 1. unfold OrderMgr_placeOrder at 1.
  unfold bind at 1. unfold modify at 1.
  destruct (placement platform) as [e|[|]]; [| congruence |];
    cbv [throw ret bind Status.eqb Transaction_wrap OrderMgr_failOrder modify
         on_wrap_enter on_wrap_commit on_begin World_scope emit on_order failed_after
         order giftCertificates trace];
    rewrite <- !app_assoc; reflexivity.
Qed.

Lemma materialize_all_length platform orderNo lis : forall n,
  List.length (materialize_all platform orderNo n lis) = List.length lis.
Proof. induction lis as [|li lis IH]; intro n; simpl; [reflexivity|]. now rewrite IH. Qed.

Lemma placeOrder_placed platform fraud w :
  placement platform = inr Status.OK ->
  let lis := Order.giftCertificateLineItems (order w) in
  all_issued platform lis = true ->
  let gcs := materialize_all platform (Order.orderNo (order w))
               (List.length (giftCertificates w)) lis in
  let w1 := {| order := placed fraud (order w);
               giftCertificates := giftCertificates w ++ gcs;
               trace := trace w ++ [EvBegin; EvPlaceOrder] ++ map issuance lis
                          ++ map (notification platform) (delivered platform gcs) |} in
  checkoutHelpers.placeOrder platform fraud w =
  if all_delivered platform gcs
  then Normal {| error := false |} (emit EvCommit w1)
  else Normal {| error := true |} (failed_after w1).
Proof.
  intros Hp lis Hall gcs w1.
  unfold checkoutHelpers.placeOrder, try_catch.
  unfold bind at 1. unfold Transaction_begin at 1, modify at 1.
  unfold bind at 1. unfold OrderMgr_placeOrder at 1.
  unfold bind at 1. unfold modify at 1. rewrite Hp.
  unfold bind at 1. unfold modify at 1. unfold ret at 1.
  unfold bind at 1. cbn [Status.eqb]. unfold ret at 1.
  unfold bind at 1.
  assert (Hconf :
    (if String.eqb (fraud_status fraud) "flag"
     then setConfirmationStatus Order.CONFIRMATION_STATUS_NOTCONFIRMED
     else setConfirmationStatus Order.CONFIRMATION_STATUS_CONFIRMED)
    = setConfirmationStatus
        (if String.eqb (fraud_status fraud) "flag"
         then Order.CONFIRMATION_STATUS_NOTCONFIRMED
         else Order.CONFIRMATION_STATUS_CONFIRMED))
    by (destruct (String.eqb _ _); reflexivity).
  rewrite Hconf. clear Hconf.
  unfold setConfirmationStatus at 1, modify at 1.
  unfold bind at 1. unfold setExportStatus at 1, modify at 1.
  unfold bind at 1. unfold gets at 1.
  unfold bind at 1.
  cbn [on_begin World_scope emit on_order order giftCertificates trace
       Order.giftCertificateLineItems Order.with_status Order.with_confirmationStatus
       Order.with_exportStatus].
  fold lis. rewrite materialize_loop by exact Hall.
  cbn [emit on_order order giftCertificates trace Order.orderNo
       Order.with_status Order.with_confirmationStatus Order.with_exportStatus].
  fold gcs.
  unfold bind at 1.
  match goal with
  | |- context [forEach _ _ ?w2] =>
      pose proof (notify_loop platform gcs (giftCertificates w) w2 eq_refl) as HN
  end.
  unfold gcs at 1 in HN. rewrite materialize_all_length in HN. fold gcs in HN.
  rewrite HN. clear HN. cbv zeta.
  cbn [order giftCertificates trace].
  destruct (all_delivered platform gcs).
  - unfold bind at 1. unfold Transaction_commit, modify, ret.
    cbn [on_commit World_scope emit order giftCertificates trace].
    unfold w1, placed. cbn [order giftCertificates trace].
    rewrite <- !app_assoc. reflexivity.
  - cbv [bind Transaction_wrap OrderMgr_failOrder modify ret
         on_wrap_enter on_wrap_commit World_scope emit on_order failed_after
         order giftCertificates trace].
    unfold w1, placed.
    rewrite <- !app_assoc. reflexivity.
Qed.

Lemma placeOrder_not_issued platform fraud w :
  placement platform = inr Status.OK ->
  all_issued platform (Order.giftCertificateLineItems (order w)) = false ->
  exists w1,
    checkoutHelpers.placeOrder platform fraud w
    = Normal {| error := true |} (failed_after w1).
Proof.
  intros Hp Hall.
  unfold checkoutHelpers.placeOrder, try_catch.
  unfold bind at 1. unfold Transaction_begin at 1, modify at 1.
  unfold bind at 1. unfold OrderMgr_placeOrder at 1.
  unfold bind at 1. unfold modify at 1. rewrite Hp.
  unfold bind at 1. unfold modify at 1. unfold ret at 1.
  unfold bind at 1. cbn [Status.eqb]. unfold ret at 1.
  unfold bind at 1.
  assert (Hconf :
    (if String.eqb (fraud_status fraud) "flag"
     then setConfirmationStatus Order.CONFIRMATION_STATUS_NOTCONFIRMED
     else setConfirmationStatus Order.CONFIRMATION_STATUS_CONFIRMED)
    = setConfirmationStatus
        (if String.eqb (fraud_status fraud) "flag"
         then Order.CONFIRMATION_STATUS_NOTCONFIRMED
         else Order.CONFIRMATION_STATUS_CONFIRMED))
    by (destruct (String.eqb _ _); reflexivity).
  rewrite Hconf. clear Hconf.
  unfold setConfirmationStatus at 1, modify at 1.
  unfold bind at 1. unfold setExportStatus at 1, modify at 1.
  unfold bind at 1. unfold gets at 1.
  unfold bind at 1.
  cbn [on_begin World_scope emit on_order order giftCertificates trace
       Order.giftCertificateLineItems Order.with_status Order.with_confirmationStatus
       Order.with_exportStatus].
  match goal with
  | |- context [mapM ?f ?l ?w2] =>
      destruct (materialize_loop_raise platform l w2 Hall) as (e & w' & ->)
  end.
  exists w'.
  cbv [bind Transaction_wrap OrderMgr_failOrder modify ret
       on_wrap_enter on_wrap_commit World_scope emit on_order failed_after
       order giftCertificates trace].
  rewrite <- !app_assoc. reflexivity.
Qed.

Lemma notified_app t1 t2 : notified (t1 ++ t2) = notified t1 ++ notified t2.
Proof.
  induction t1 as [|e t1 IH]; simpl; [reflexivity|].
  destruct e; simpl; now rewrite ?IH.
Qed.

Lemma recipients_app t1 t2 : recipients (t1 ++ t2) = recipients t1 ++ recipients t2.
Proof.
  induction t1 as [|e t1 IH]; simpl; [reflexivity|].
  destruct e; simpl; now rewrite ?IH.
Qed.

Lemma issued_app t1 t2 : issued (t1 ++ t2) = issued t1 ++ issued t2.
Proof.
  induction t1 as [|e t1 IH]; simpl; [reflexivity|].
  destruct e; simpl; now rewrite ?IH.
Qed.

Lemma notified_issuances lis : notified (map issuance lis) = [].
Proof. induction lis; simpl; auto. Qed.

Lemma recipients_issuances lis : recipients (map issuance lis) = [].
Proof. induction lis; simpl; auto. Qed.

Lemma issued_issuances lis :
  issued (map issuance lis) = map (fun li => Money.value (netPrice li)) lis.
Proof. induction lis; simpl; congruence. Qed.

Lemma notified_notifications platform gcs :
  notified (map (notification platform) gcs) = gcs.
Proof. induction gcs; simpl; congruence. Qed.

Lemma recipients_notifications platform gcs :
  recipients (map (notification platform) gcs) = map gc_recipientEmail gcs.
Proof. induction gcs; simpl; congruence. Qed.

Lemma issued_notifications platform gcs :
  issued (map (notification platform) gcs) = [].
Proof. induction gcs; simpl; auto. Qed.

Lemma delivered_all platform gcs :
  all_delivered platform gcs = true -> delivered platform gcs = gcs.
Proof.
  induction gcs as [|gc gcs IH]; simpl; [reflexivity|].
  intro H. apply andb_true_iff in H. destruct H as [Hgc H].
  apply negb_true_iff in Hgc. rewrite Hgc. now rewrite IH.
Qed.

Lemma materialize_all_spec platform orderNo lis : forall n,
  Forall2 (materializes orderNo) lis (materialize_all platform orderNo n lis).
Proof.
  induction lis as [|li lis IH]; intro n; simpl; constructor; auto.
  repeat split.
Qed.

Lemma materialize_all_recipients platform orderNo lis : forall n,
  map gc_recipientEmail (materialize_all platform orderNo n lis)
  = map recipientEmail lis.
Proof. induction lis as [|li lis IH]; intro n; simpl; [reflexivity|]. now rewrite IH. Qed.

Lemma no_commit_before platform lis gcs :
  ~ In EvCommit ([EvBegin; EvPlaceOrder] ++ map issuance lis
                   ++ map (notification platform) gcs).
Proof.
  intro H. simpl in H. destruct H as [H|[H|H]]; try discriminate.
  apply in_app_or in H. destruct H as [H|H]; apply in_map_iff in H;
    destruct H as (x & Hx & _); discriminate.
Qed.

(** C3: when the order-management placement call returns the error
    status, [placeOrder] returns [{error: true}]; no certificate is
    materialized and no notification dispatched (the only platform calls
    are the begin of the transaction, the placement call, and
    [failOrder] inside a wrapped transaction of its own), and the order
    is marked as failed. *)
Theorem placeOrder_placement_error platform fraud w :
  placement platform = inr Status.ERROR ->
  exists w',
    checkoutHelpers.placeOrder platform fraud w = Normal {| error := true |} w' /\
    giftCertificates w' = giftCertificates w /\
    trace w' = trace w ++ [EvBegin; EvPlaceOrder; EvWrapEnter; EvFailOrder; EvWrapCommit] /\
    issued (trace w') = issued (trace w) /\
    notified (trace w') = notified (trace w) /\
    Order.status (order w') = Order.ORDER_STATUS_FAILED.
Proof.
  intro Hp. eexists. split.
  - apply placeOrder_not_placed. rewrite Hp. discriminate.
  - unfold failed_after; cbn [order giftCertificates trace Order.status Order.with_status].
    rewrite <- app_assoc. cbn [app].
    rewrite issued_app, notified_app. cbn [issued notified].
    rewrite !app_nil_r. repeat split.
Qed.

(** C7: when [placeOrder] returns [{error: false}], the certificates the
    platform holds afterwards are those it held before followed by
    exactly one certificate per gift-certificate line item of the order,
    in their order; each has the net price of its line item as balance,
    the recipient e-mail, recipient name, sender name and message of the
    line item, and the number of the order; and exactly one notification
    per certificate was dispatched, to the recipient of its line item. *)
Theorem placeOrder_materializes_and_notifies platform fraud w r w' :
  checkoutHelpers.placeOrder platform fraud w = Normal r w' ->
  error r = false ->
  let lis := Order.giftCertificateLineItems (order w) in
  exists created t,
    giftCertificates w' = giftCertificates w ++ created /\
    Forall2 (materializes (Order.orderNo (order w))) lis created /\
    trace w' = trace w ++ t /\
    issued t = map (fun li => Money.value (netPrice li)) lis /\
    notified t = created /\
    recipients t = map recipientEmail lis.
Proof.
  intros Hrun Herr lis.
  destruct (placement platform) as [e|[|]] eqn:Hp.
  - rewrite placeOrder_not_placed in Hrun by (rewrite Hp; discriminate).
    injection Hrun as <- _. discriminate.
  - destruct (all_issued platform lis) eqn:Hall.
    + rewrite (placeOrder_placed platform fraud w Hp Hall) in Hrun.
      fold lis in Hrun.
      set (gcs := materialize_all platform (Order.orderNo (order w))
                    (List.length (giftCertificates w)) lis) in *.
      destruct (all_delivered platform gcs) eqn:Hd.
      * injection Hrun as <- <-.
        exists gcs.
        exists ([EvBegin; EvPlaceOrder] ++ map issuance lis
                  ++ map (notification platform) gcs ++ [EvCommit]).
        rewrite (delivered_all _ _ Hd).
        cbn [emit order giftCertificates trace].
        split; [reflexivity|].
        split; [apply materialize_all_spec|].
        split; [trace_eq|].
        rewrite !issued_app, !notified_app, !recipients_app.
        rewrite issued_issuances, issued_notifications, notified_issuances,
          notified_notifications, recipients_issuances, recipients_notifications.
        cbn [issued notified recipients app]. rewrite !app_nil_r.
        repeat split. apply materialize_all_recipients.
      * injection Hrun as <- _. discriminate.
    + destruct (placeOrder_not_issued platform fraud w Hp Hall) as (w1 & H1).
      rewrite H1 in Hrun. injection Hrun as <- _. discriminate.
  - rewrite placeOrder_not_placed in Hrun by (rewrite Hp; discriminate).
    injection Hrun as <- _. discriminate.
Qed.

(** C2, amended: when the placement call returns success and every
    certificate is issued, the notifications are dispatched inside the
    [try] block, after the issuances and before [Transaction.commit].
    If every dispatch succeeds, the platform calls are the begin, the
    placement, the issuances, one notification per certificate and then
    the commit, and the result is [{error: false}] with the order
    placed.  If a dispatch raises, the exception is caught like any
    other: the commit is never reached, [failOrder] is called in a
    wrapped transaction of its own, the order is marked as failed and
    the result is [{error: true}]. *)
Theorem placeOrder_notifies_before_commit platform fraud w :
  placement platform = inr Status.OK ->
  let lis := Order.giftCertificateLineItems (order w) in
  all_issued platform lis = true ->
  let gcs := materialize_all platform (Order.orderNo (order w))
               (List.length (giftCertificates w)) lis in
  exists r w',
    checkoutHelpers.placeOrder platform fraud w = Normal r w' /\
    (all_delivered platform gcs = true ->
       exists before,
         r = {| error := false |} /\
         trace w' = trace w ++ before ++ [EvCommit] /\
         ~ In EvCommit before /\
         notified before = gcs /\
         Order.status (order w') = Order.ORDER_STATUS_NEW) /\
    (all_delivered platform gcs = false ->
       r = {| error := true |} /\
       trace w' = trace w ++ ([EvBegin; EvPlaceOrder] ++ map issuance lis
                               ++ map (notification platform) (delivered platform gcs))
                          ++ [EvWrapEnter; EvFailOrder; EvWrapCommit] /\
       Order.status (order w') = Order.ORDER_STATUS_FAILED).
Proof.
  intros Hp lis Hall gcs.
  rewrite (placeOrder_placed platform fraud w Hp Hall).
  fold lis. fold gcs.
  destruct (all_delivered platform gcs) eqn:Hd.
  - do 2 eexists. split; [reflexivity|]. split; [|discriminate].
    intros _.
    exists ([EvBegin; EvPlaceOrder] ++ map issuance lis
              ++ map (notification platform) gcs).
    rewrite (delivered_all _ _ Hd).
    cbn [emit order giftCertificates trace].
    split; [reflexivity|].
    split; [trace_eq|].
    split; [apply no_commit_before|].
    split; [|reflexivity].
    rewrite !notified_app, notified_issuances, notified_notifications. reflexivity.
  - do 2 eexists. split; [reflexivity|]. split; [discriminate|].
    intros _. unfold failed_after. cbn [order giftCertificates trace].
    split; [reflexivity|].
    split; [trace_eq|reflexivity].
Qed.

(** C2, as stated, fails on both counts.  On a platform where every
    call succeeds the first notification is dispatched before any
    commit; and on a platform whose e-mail transport raises, the
    placement of the same order returns [{error: true}] and leaves the
    order failed. *)
Lemma placeOrder_notifies_inside_transaction :
  ~ notifies_after_commit_and_never_fails reliable_platform not_flagged before_placement /\
  ~ notifies_after_commit_and_never_fails undeliverable_platform not_flagged
      before_placement.
Proof.
  split.
  - intro H. destruct (H eq_refl eq_refl) as (r & w' & Hrun & Hafter & _).
    vm_compute in Hrun. injection Hrun as _ <-.
    cbn [trace] in Hafter.
    specialize (Hafter [EvBegin; EvPlaceOrder; EvCreateGiftCertificate 25;
                        EvCreateGiftCertificate 10]).
    cbn [app] in Hafter. specialize (Hafter _ _ _ _ eq_refl).
    cbn [In] in Hafter. intuition discriminate.
  - intro H. destruct (H eq_refl eq_refl) as (r & w' & Hrun & _ & Herr & _).
    vm_compute in Hrun. injection Hrun as <- _. discriminate.
Qed.

Lemma placeOrder_notifies_before_commit_witness :
  placement undeliverable_platform = inr Status.OK /\
  all_issued undeliverable_platform
    (Order.giftCertificateLineItems (order before_placement)) = true /\
  let lis := Order.giftCertificateLineItems (order before_placement) in
  let gcs := materialize_all undeliverable_platform "00000001" 0 lis in
  exists r w',
    checkoutHelpers.placeOrder undeliverable_platform not_flagged before_placement
      = Normal r w' /\
    (all_delivered undeliverable_platform gcs = true ->
       exists before,
         r = {| error := false |} /\
         trace w' = trace before_placement ++ before ++ [EvCommit] /\
         ~ In EvCommit before /\
         notified before = gcs /\
         Order.status (order w') = Order.ORDER_STATUS_NEW) /\
    (all_delivered undeliverable_platform gcs = false ->
       r = {| error := true |} /\
       trace w' = trace before_placement
                    ++ ([EvBegin; EvPlaceOrder] ++ map issuance lis
                          ++ map (notification undeliverable_platform)
                                 (delivered undeliverable_platform gcs))
                    ++ [EvWrapEnter; EvFailOrder; EvWrapCommit] /\
       Order.status (order w') = Order.ORDER_STATUS_FAILED).
Proof.
  split; [reflexivity|]. split; [reflexivity|].
  exact (placeOrder_notifies_before_commit undeliverable_platform not_flagged
           before_placement eq_refl eq_refl).
Defined.

Lemma placeOrder_placement_error_witness :
  placement rejecting_platform = inr Status.ERROR /\
  exists w',
    checkoutHelpers.placeOrder rejecting_platform not_flagged before_placement
      = Normal {| error := true |} w' /\
    giftCertificates w' = giftCertificates before_placement /\
    trace w' = trace before_placement
                 ++ [EvBegin; EvPlaceOrder; EvWrapEnter; EvFailOrder; EvWrapCommit] /\
    issued (trace w') = issued (trace before_placement) /\
    notified (trace w') = notified (trace before_placement) /\
    Order.status (order w') = Order.ORDER_STATUS_FAILED.
Proof.
  split; [reflexivity|].
  exact (placeOrder_placement_error rejecting_platform not_flagged
           before_placement eq_refl).
Defined.

Lemma placeOrder_materializes_and_notifies_witness :
  checkoutHelpers.placeOrder reliable_platform not_flagged before_placement
    = Normal {| error := false |} after_placement /\
  exists created t,
    giftCertificates after_placement = giftCertificates before_placement ++ created /\
    Forall2 (materializes "00000001")
            (Order.giftCertificateLineItems two_certificates_order) created /\
    trace after_placement = trace before_placement ++ t /\
    issued t = map (fun li => Money.value (netPrice li))
                   (Order.giftCertificateLineItems two_certificates_order) /\
    notified t = created /\
    recipients t = map recipientEmail
                       (Order.giftCertificateLineItems two_certificates_order).
Proof.
  assert (Hrun : checkoutHelpers.placeOrder reliable_platform not_flagged
                   before_placement = Normal {| error := false |} after_placement)
    by (vm_compute; reflexivity).
  split; [exact Hrun|].
  exact (placeOrder_materializes_and_notifies reliable_platform not_flagged
           before_placement {| error := false |} after_placement Hrun eq_refl).
Defined.

(* ------------------------------------------------------------------ *)
(** ** Editing a gift-certificate line item                            *)
(* ------------------------------------------------------------------ *)

Lemma update_nth_compose {A} (f g : A -> A) l : forall n,
  update_nth n f (update_nth n g l) = update_nth n (fun x => f (g x)) l.
Proof.
  induction l as [|x l IH]; intros [|n]; simpl; try reflexivity.
  now rewrite IH.
Qed.

Lemma nth_error_update_nth {A} (f : A -> A) l : forall n x,
  nth_error l n = Some x -> nth_error (update_nth n f l) n = Some (f x).
Proof.
  induction l as [|y l IH]; intros [|n] x; simpl; try discriminate.
  - now intros [= ->].
  - apply IH.
Qed.

Lemma lookup_found lineItems uuid : forall li,
  In li lineItems -> UUID li = uuid ->
  exists ref li0,
    giftCertHelpers.getGiftCertificateLineItemByUUID lineItems uuid = Some ref /\
    nth_error lineItems ref = Some li0 /\ UUID li0 = uuid.
Proof.
  induction lineItems as [|x l IH]; intros li Hin Hu; simpl in *; [contradiction|].
  destruct (String.eqb_spec (UUID x) uuid) as [E|N].
  - exists 0%nat, x. auto.
  - destruct Hin as [->|Hin]; [contradiction|].
    destruct (IH li Hin Hu) as (ref & li0 & -> & Hn & H0).
    exists (S ref), li0. auto.
Qed.

Lemma lookup_update (f : GiftCertificateLineItem -> GiftCertificateLineItem)
    lineItems uuid :
  (forall x, UUID (f x) = UUID x) ->
  forall n,
    giftCertHelpers.getGiftCertificateLineItemByUUID (update_nth n f lineItems) uuid
    = giftCertHelpers.getGiftCertificateLineItemByUUID lineItems uuid.
Proof.
  intro HU. induction lineItems as [|x l IH]; intros [|n]; simpl; try reflexivity.
  - now rewrite HU.
  - now rewrite IH.
Qed.

Lemma updateGiftCert_run purchaseForm b ref :
  fvalue (lineItemId purchaseForm) <> ""%string ->
  giftCertHelpers.getGiftCertificateLineItemByUUID
    (giftCertificateLineItems b) (fvalue (lineItemId purchaseForm)) = Some ref ->
  giftCertHelpers.updateGiftCert purchaseForm b =
  Normal (Some ref)
    (set_giftCertificateLineItems
       (update_nth ref (edited purchaseForm) (giftCertificateLineItems b)) b).
Proof.
  intros Hne Hfind.
  unfold giftCertHelpers.updateGiftCert.
  unfold bind at 1. unfold gets at 1. unfold getGiftCertificateLineItems.
  assert (Hlen : (0 <? List.length (giftCertificateLineItems b))%nat = true).
  { destruct (giftCertificateLineItems b); [discriminate|reflexivity]. }
  assert (Hemp : empty (fvalue (lineItemId purchaseForm)) = false).
  { unfold empty. now apply String.eqb_neq. }
  rewrite Hlen, Hemp, Hfind. cbn [negb andb].
  cbv [bind Transaction_wrap assign modify ret on_wrap_enter on_wrap_commit
       Basket_scope set_giftCertificateLineItems giftCertificateLineItems
       paymentInstruments totalGrossPrice currencyCode productQuantityTotal].
  rewrite !update_nth_compose.
  do 3 f_equal.
Qed.

(** C8: editing a line item of the basket through its (non-empty) UUID
    and then building its form data gives back what the form stored:
    [updateGiftCert] returns the line item the UUID designates, looking
    the UUID up again finds that same line item, and the object
    [getGiftLineItemObj] builds from it carries the from, recipient,
    recipient e-mail, message and amount values of the form, the amount
    exactly, under either taxation policy. *)
Theorem updateGiftCert_getGiftLineItemObj_roundtrip policy purchaseForm b li :
  In li (giftCertificateLineItems b) ->
  fvalue (lineItemId purchaseForm) = UUID li ->
  UUID li <> ""%string ->
  exists ref b' li',
    giftCertHelpers.updateGiftCert purchaseForm b = Normal (Some ref) b' /\
    giftCertHelpers.getGiftCertificateLineItemByUUID
      (giftCertificateLineItems b') (UUID li) = Some ref /\
    nth_error (giftCertificateLineItems b') ref = Some li' /\
    let obj := giftCertHelpers.getGiftLineItemObj policy li' in
    obj_lineItemId obj = UUID li /\
    obj_from obj = fvalue (from purchaseForm) /\
    obj_recipient obj = fvalue (recipient purchaseForm) /\
    obj_recipientEmail obj = fvalue (form_recipientEmail purchaseForm) /\
    obj_confirmRecipientEmail obj = fvalue (form_recipientEmail purchaseForm) /\
    obj_message obj = fvalue (form_message purchaseForm) /\
    obj_amount obj = fvalue (form_amount purchaseForm).
Proof.
  intros Hin Hid Hne.
  destruct (lookup_found (giftCertificateLineItems b) (UUID li) li Hin eq_refl)
    as (ref & li0 & Hfind & Hnth & Hu).
  exists ref. eexists. exists (edited purchaseForm li0).
  split.
  - apply updateGiftCert_run; rewrite Hid; assumption.
  - cbn [giftCertificateLineItems set_giftCertificateLineItems].
    split; [|split].
    + rewrite lookup_update; [assumption|reflexivity].
    + now apply nth_error_update_nth.
    + destruct policy; cbn; repeat split; assumption.
Qed.

Lemma updateGiftCert_getGiftLineItemObj_roundtrip_witness :
  exists ref b' li',
    giftCertHelpers.updateGiftCert edit_second gift_basket = Normal (Some ref) b' /\
    giftCertHelpers.getGiftCertificateLineItemByUUID
      (giftCertificateLineItems b') "li-2" = Some ref /\
    nth_error (giftCertificateLineItems b') ref = Some li' /\
    let obj := giftCertHelpers.getGiftLineItemObj TAX_POLICY_NET li' in
    obj_lineItemId obj = "li-2"%string /\
    obj_from obj = "Ann B."%string /\
    obj_recipient obj = "Cid D."%string /\
    obj_recipientEmail obj = "cid@example.org"%string /\
    obj_confirmRecipientEmail obj = "cid@example.org"%string /\
    obj_message obj = "Thanks a lot"%string /\
    obj_amount obj = 125 # 10.
Proof.
  apply (updateGiftCert_getGiftLineItemObj_roundtrip TAX_POLICY_NET edit_second
           gift_basket
           {| UUID := "li-2"; senderName := "Ann"; recipientName := "Cid";
              recipientEmail := "cid@example.com"; message := "Thank you";
              basePrice := usd 10; grossPrice := usd 10; netPrice := usd 10 |}).
  - simpl. right. left. reflexivity.
  - reflexivity.
  - discriminate.
Defined.

(* ------------------------------------------------------------------ *)
(** ** The mini-cart                                                   *)
(* ------------------------------------------------------------------ *)

(** C9: the handler appended to [MiniCart] completes only when there is
    a current basket.  With a basket it sets [quantityTotal] to the
    product quantity plus the number of gift-certificate line items and
    calls [next]; with no current basket the quantity falls back to 0
    but the read of [currentBasket.giftCertificateLineItems] raises a
    [TypeError]: no view data is set and [next] is not called. *)
Theorem MiniCart_raises_without_basket :
  (forall res, Cart.MiniCart None res = Throw TypeError res) /\
  (forall b res, exists q,
      Cart.MiniCart (Some b) res
        = Normal tt {| quantityTotal := Some q; next_called := true |} /\
      (q == productQuantityTotal b
            + inject_Z (Z.of_nat (List.length (giftCertificateLineItems b))))%Q).
Proof.
  split.
  - intro res. reflexivity.
  - intros b res. unfold Cart.MiniCart, Cart.giftCertificateLineItems_of.
    cbv [bind ret].
    destruct (giftCertificateLineItems b) as [|li lis] eqn:E; cbn [List.length Nat.ltb Nat.leb].
    + eexists. split; [reflexivity|]. cbn. ring.
    + eexists. split; [reflexivity|]. reflexivity.
Qed.

(* ------------------------------------------------------------------ *)
(** ** Validating the purchase form                                    *)
(* ------------------------------------------------------------------ *)


(** E-mails that differ in letter case only pass the first check; an
    amount of 4.99 fails the second. *)
Example processAddToBasket_accepts_case_difference :
  giftCertHelpers.processAddToBasket case_form = case_form.
Proof. reflexivity. Qed.

Example processAddToBasket_rejects_small_amount :
  valid (giftCertHelpers.processAddToBasket small_form) = false /\
  ferror (form_amount (purchase (giftCertHelpers.processAddToBasket small_form)))
  = Some "giftcert.amountparseerror"%string.
Proof. split; reflexivity. Qed.

(* ------------------------------------------------------------------ *)
(** ** Sample runs                                                     *)
(* ------------------------------------------------------------------ *)

(** Stored value equal to the order total: the card is kept and charged
    exactly zero. *)
Example calculatePaymentTransaction_exactly_covered :
  checkoutHelpers.calculatePaymentTransaction covered_basket =
  Normal {| error := false |}
    (set_paymentInstruments
       [{| id := 1; paymentMethod := METHOD_GIFT_CERTIFICATE;
           giftCertificateCode := "A"; amount := usd 40 |};
        {| id := 2; paymentMethod := "CREDIT_CARD";
           giftCertificateCode := ""; amount := usd 0 |}]
       covered_basket).
Proof. reflexivity. Qed.

(** No card and 25.00 of stored value for 40.00: the balancer reports
    an error. *)
Example calculatePaymentTransaction_underpaid :
  checkoutHelpers.calculatePaymentTransaction underpaid_basket =
  Normal {| error := true |} underpaid_basket.
Proof. reflexivity. Qed.

(** On the mixed basket the two instruments left over for "B" are
    replaced by one of 50.00: 100.00 less the 30.00 of "A" leaves 70.00
    open, more than the balance. *)
Example createGiftCertificatePaymentInstrument_mixed :
  giftCertHelpers.createGiftCertificatePaymentInstrument (certificate "B" 50) mixed_basket =
  let pi := {| id := 4; paymentMethod := METHOD_GIFT_CERTIFICATE;
               giftCertificateCode := "B"; amount := usd 50 |} in
  Normal pi
    (set_paymentInstruments
       [{| id := 1; paymentMethod := METHOD_GIFT_CERTIFICATE;
           giftCertificateCode := "A"; amount := usd 30 |};
        {| id := 3; paymentMethod := "CREDIT_CARD";
           giftCertificateCode := ""; amount := usd 65 |};
        pi]
       mixed_basket).
Proof. reflexivity. Qed.

(** Two line items of 25.00 and 10.00 give two certificates with these
    balances and two notifications, all before the commit. *)
Example placeOrder_two_certificates :
  map gc_balance (giftCertificates after_placement) = [usd 25; usd 10] /\
  recipients (trace after_placement) = ["bob@example.com"; "cid@example.com"]%string /\
  issued (trace after_placement) = [25; 10] /\
  last (trace after_placement) EvBegin = EvCommit /\
  Order.status (order after_placement) = Order.ORDER_STATUS_NEW.
Proof. repeat split. Qed.

(* ================================================================== *)
(** * Further properties of the scripts                                *)
(* ================================================================== *)

(* ------------------------------------------------------------------ *)
(** ** Removing and re-applying a credential                           *)
(* ------------------------------------------------------------------ *)

Lemma remaining_none_bound code l :
  filter (boundTo code) l = [] -> remaining code l = l.
Proof.
  unfold remaining. induction l as [|x l IH]; simpl; [reflexivity|].
  destruct (boundTo code x); simpl; [discriminate|].
  intro H. now rewrite IH.
Qed.

(** X1: on a basket of distinct instruments, both versions of
    [removeGiftCertificatePaymentInstrument] (the one of the checkout
    helpers wraps the loop in a transaction) leave exactly the
    instruments not bound to the code, in their order, and change
    nothing else; the basket is untouched when no instrument is bound to
    the code, so removing a second time changes nothing. *)
Theorem removeGiftCertificatePaymentInstrument_removes_bound b code :
  distinct_instruments b ->
  let b' := set_paymentInstruments (remaining code (paymentInstruments b)) b in
  giftCertHelpers.removeGiftCertificatePaymentInstrument code b = Normal tt b' /\
  checkoutHelpers.removeGiftCertificatePaymentInstrument code b = Normal tt b' /\
  giftCertHelpers.removeGiftCertificatePaymentInstrument code b' = Normal tt b' /\
  (filter (boundTo code) (paymentInstruments b) = [] -> b' = b).
Proof.
  intros ND b'.
  assert (H1 : giftCertHelpers.removeGiftCertificatePaymentInstrument code b
               = Normal tt b').
  { unfold giftCertHelpers.removeGiftCertificatePaymentInstrument.
    unfold bind, gets. now apply remove_bound. }
  split; [exact H1|]. split; [|split].
  - unfold checkoutHelpers.removeGiftCertificatePaymentInstrument.
    unfold bind, gets, Transaction_wrap. cbn [on_wrap_enter on_wrap_commit Basket_scope].
    now rewrite remove_bound.
  - unfold giftCertHelpers.removeGiftCertificatePaymentInstrument.
    unfold bind, gets. rewrite remove_bound.
    + unfold b'. cbn [paymentInstruments set_paymentInstruments].
      now rewrite remaining_idempotent.
    + unfold distinct_instruments, b'. cbn [paymentInstruments set_paymentInstruments].
      now apply NoDup_map_filter.
  - intro H. unfold b'. rewrite remaining_none_bound by assumption.
    apply set_paymentInstruments_same.
Qed.

Lemma removeGiftCertificatePaymentInstrument_removes_bound_witness :
  distinct_instruments mixed_basket /\
  let b' := set_paymentInstruments (remaining "B" (paymentInstruments mixed_basket))
              mixed_basket in
  giftCertHelpers.removeGiftCertificatePaymentInstrument "B" mixed_basket = Normal tt b' /\
  checkoutHelpers.removeGiftCertificatePaymentInstrument "B" mixed_basket = Normal tt b' /\
  giftCertHelpers.removeGiftCertificatePaymentInstrument "B" b' = Normal tt b' /\
  (filter (boundTo "B") (paymentInstruments mixed_basket) = [] -> b' = mixed_basket).
Proof.
  assert (ND : distinct_instruments mixed_basket).
  { unfold distinct_instruments; simpl.
    repeat constructor; simpl; intuition discriminate. }
  split; [exact ND|].
  exact (removeGiftCertificatePaymentInstrument_removes_bound mixed_basket "B" ND).
Defined.

(** X2: removing a credential undoes its application.  On a basket of
    distinct instruments in one currency, applying a certificate and
    then removing its code leaves the instruments not bound to the code;
    when no instrument was bound to the code before, that is the basket
    as it was. *)
Theorem create_then_remove b gc :
  distinct_instruments b -> single_currency b ->
  let code := getGiftCertificateCode gc in
  (giftCertHelpers.createGiftCertificatePaymentInstrument gc ;;
   giftCertHelpers.removeGiftCertificatePaymentInstrument code) b
  = Normal tt (set_paymentInstruments (remaining code (paymentInstruments b)) b) /\
  (filter (boundTo code) (paymentInstruments b) = [] ->
   (giftCertHelpers.createGiftCertificatePaymentInstrument gc ;;
    giftCertHelpers.removeGiftCertificatePaymentInstrument code) b = Normal tt b).
Proof.
  intros ND SC code.
  assert (H : (giftCertHelpers.createGiftCertificatePaymentInstrument gc ;;
               giftCertHelpers.removeGiftCertificatePaymentInstrument code) b
              = Normal tt (set_paymentInstruments
                             (remaining code (paymentInstruments b)) b)).
  { unfold bind at 1. rewrite create_on_wellformed by assumption.
    unfold giftCertHelpers.removeGiftCertificatePaymentInstrument.
    unfold bind, gets. rewrite remove_bound by now apply distinct_after_create.
    cbn [paymentInstruments set_paymentInstruments].
    fold code. rewrite remaining_after_create by apply redemption_bound.
    reflexivity. }
  split; [exact H|].
  intro Hnone. rewrite H, remaining_none_bound by assumption.
  now rewrite set_paymentInstruments_same.
Qed.

Lemma create_then_remove_witness :
  distinct_instruments overpaid_basket /\ single_currency overpaid_basket /\
  (giftCertHelpers.createGiftCertificatePaymentInstrument (certificate "B" 20) ;;
   giftCertHelpers.removeGiftCertificatePaymentInstrument "B") overpaid_basket
  = Normal tt (set_paymentInstruments
                 (remaining "B" (paymentInstruments overpaid_basket)) overpaid_basket) /\
  (filter (boundTo "B") (paymentInstruments overpaid_basket) = [] ->
   (giftCertHelpers.createGiftCertificatePaymentInstrument (certificate "B" 20) ;;
    giftCertHelpers.removeGiftCertificatePaymentInstrument "B") overpaid_basket
   = Normal tt overpaid_basket).
Proof.
  assert (ND : distinct_instruments overpaid_basket).
  { unfold distinct_instruments; simpl.
    repeat constructor; simpl; intuition discriminate. }
  assert (SC : single_currency overpaid_basket).
  { split; [reflexivity|repeat constructor]. }
  split; [exact ND|]. split; [exact SC|].
  exact (create_then_remove overpaid_basket (certificate "B" 20) ND SC).
Defined.

(* ------------------------------------------------------------------ *)
(** ** What an application does to the stored-value total              *)
(* ------------------------------------------------------------------ *)

Lemma sumRedeemed_snoc l pi :
  isGiftCertificate pi = true ->
  sumRedeemed (l ++ [pi]) = (sumRedeemed l + Money.value (amount pi))%Q.
Proof.
  intro H. unfold sumRedeemed. rewrite filter_app. simpl. rewrite H.
  now rewrite fold_left_app.
Qed.

Lemma redemption_gift b gc : isGiftCertificate (redemption b gc) = true.
Proof. reflexivity. Qed.

(** X3: no over-redemption.  After a certificate is applied to a basket
    of distinct instruments in one currency, the stored-value
    redemptions of the basket add up to at most the order total, whatever
    they added up to before; they add up to exactly the order total when
    the balance of the certificate exceeds the remaining order
    balance. *)
Theorem createGiftCertificatePaymentInstrument_no_over_redemption b gc :
  distinct_instruments b -> single_currency b ->
  exists pi b',
    giftCertHelpers.createGiftCertificatePaymentInstrument gc b = Normal pi b' /\
    (sumRedeemed (paymentInstruments b') <= Money.value (totalGrossPrice b'))%Q /\
    ((orderBalance b (getGiftCertificateCode gc) < Money.value (getBalance gc))%Q ->
     (sumRedeemed (paymentInstruments b') == Money.value (totalGrossPrice b'))%Q).
Proof.
  intros ND SC. do 2 eexists.
  split; [now apply create_on_wellformed|].
  cbn [paymentInstruments totalGrossPrice set_paymentInstruments].
  rewrite sumRedeemed_snoc by apply redemption_gift.
  pose proof (redemption_min b gc) as Hmin.
  unfold orderBalance in *.
  set (R := sumRedeemed (remaining (getGiftCertificateCode gc) (paymentInstruments b))) in *.
  set (T := Money.value (totalGrossPrice b)) in *.
  set (a := Money.value (amount (redemption b gc))) in *.
  split.
  - assert (a <= T - R)%Q by (rewrite Hmin; apply Q.le_min_r). lra.
  - intro Hlt.
    assert (a == T - R)%Q
      by (rewrite Hmin; apply Q.min_r; now apply Qlt_le_weak).
    lra.
Qed.

Lemma createGiftCertificatePaymentInstrument_no_over_redemption_witness :
  distinct_instruments overpaid_basket /\ single_currency overpaid_basket /\
  exists pi b',
    giftCertHelpers.createGiftCertificatePaymentInstrument (certificate "B" 20)
      overpaid_basket = Normal pi b' /\
    (sumRedeemed (paymentInstruments b') <= Money.value (totalGrossPrice b'))%Q /\
    ((orderBalance overpaid_basket "B" < 20)%Q ->
     (sumRedeemed (paymentInstruments b') == Money.value (totalGrossPrice b'))%Q).
Proof.
  assert (ND : distinct_instruments overpaid_basket).
  { unfold distinct_instruments; simpl.
    repeat constructor; simpl; intuition discriminate. }
  assert (SC : single_currency overpaid_basket).
  { split; [reflexivity|repeat constructor]. }
  split; [exact ND|]. split; [exact SC|].
  exact (createGiftCertificatePaymentInstrument_no_over_redemption
           overpaid_basket (certificate "B" 20) ND SC).
Defined.

Lemma in_currency_snoc cur l pi :
  in_currency cur l -> Money.currencyCode (amount pi) = cur ->
  in_currency cur (l ++ [pi]).
Proof.
  unfold in_currency. intros Hl Hpi. apply Forall_app. split; [assumption|].
  constructor; [intros _; assumption|constructor].
Qed.

Lemma redemption_currency b gc :
  Money.currencyCode (totalGrossPrice b) = currencyCode b ->
  Money.currencyCode (getBalance gc) = currencyCode b ->
  Money.currencyCode (amount (redemption b gc)) = currencyCode b.
Proof.
  intros Ht Hg. unfold redemption. cbn [amount].
  destruct (Money_lt _ _); assumption.
Qed.

(** X4: the basket invariants are kept.  Applying a certificate whose
    balance is in the currency of the basket to a basket of distinct
    instruments in one currency gives a basket of distinct instruments
    in one currency, with the same order total, currency and line
    items. *)
Theorem createGiftCertificatePaymentInstrument_keeps_invariants b gc :
  distinct_instruments b -> single_currency b ->
  Money.currencyCode (getBalance gc) = currencyCode b ->
  exists pi b',
    giftCertHelpers.createGiftCertificatePaymentInstrument gc b = Normal pi b' /\
    distinct_instruments b' /\ single_currency b' /\
    totalGrossPrice b' = totalGrossPrice b /\
    currencyCode b' = currencyCode b /\
    giftCertificateLineItems b' = giftCertificateLineItems b.
Proof.
  intros ND SC Hgc. do 2 eexists.
  split; [now apply create_on_wellformed|].
  split; [now apply distinct_after_create|].
  destruct SC as [Ht Hc].
  split; [|repeat split].
  split; [exact Ht|].
  cbn [paymentInstruments currencyCode set_paymentInstruments].
  apply in_currency_snoc; [now apply in_currency_remaining|].
  now apply redemption_currency.
Qed.

Lemma createGiftCertificatePaymentInstrument_keeps_invariants_witness :
  distinct_instruments mixed_basket /\ single_currency mixed_basket /\
  Money.currencyCode (getBalance (certificate "B" 50)) = currencyCode mixed_basket /\
  exists pi b',
    giftCertHelpers.createGiftCertificatePaymentInstrument (certificate "B" 50)
      mixed_basket = Normal pi b' /\
    distinct_instruments b' /\ single_currency b' /\
    totalGrossPrice b' = totalGrossPrice mixed_basket /\
    currencyCode b' = currencyCode mixed_basket /\
    giftCertificateLineItems b' = giftCertificateLineItems mixed_basket.
Proof.
  assert (ND : distinct_instruments mixed_basket).
  { unfold distinct_instruments; simpl.
    repeat constructor; simpl; intuition discriminate. }
  assert (SC : single_currency mixed_basket).
  { split; [reflexivity|repeat constructor]. }
  split; [exact ND|]. split; [exact SC|]. split; [reflexivity|].
  exact (createGiftCertificatePaymentInstrument_keeps_invariants
           mixed_basket (certificate "B" 50) ND SC eq_refl).
Defined.

(* ------------------------------------------------------------------ *)
(** ** Reconciling, again                                              *)
(* ------------------------------------------------------------------ *)

(** The balancer on a basket whose first conventional instrument is
    [target]. *)
Lemma calculatePaymentTransaction_run b pre target post :
  paymentInstruments b = pre ++ target :: post ->
  Forall (fun pi => isGiftCertificate pi = true) pre ->
  isGiftCertificate target = false ->
  single_currency b ->
  checkoutHelpers.calculatePaymentTransaction b =
  Normal {| error := false |}
         (set_paymentInstruments (pre ++ with_amount (charge b) target :: post) b).
Proof.
  intros HL HG HT SC. pose proof SC as [Hcur HC].
  unfold checkoutHelpers.calculatePaymentTransaction.
  unfold bind at 1. unfold gets at 1.
  unfold bind at 1. unfold gets at 1.
  unfold bind at 1. unfold getPaymentInstruments, getCurrencyCode.
  rewrite HL. rewrite HL in HC. apply in_currency_app in HC. destruct HC as [HC _].
  rewrite locate_prefix by assumption. simpl. rewrite HT.
  unfold ret at 1. unfold bind at 1. unfold gets at 1.
  unfold try_catch, bind at 1, Transaction_wrap. simpl.
  unfold bind at 1.
  rewrite getNonGiftCertificateAmount_run by exact SC.
  unfold charge, Money.getCurrencyCode. simpl.
  destruct (num_le _ 0); unfold setAmount, modify, ret; simpl;
    rewrite HL, update_nth_app; reflexivity.
Qed.

Lemma charge_covers b :
  (0 <= Money.value (charge b))%Q /\
  (Money.value (totalGrossPrice b)
     <= Money.value (charge b) + sumRedeemed (paymentInstruments b))%Q /\
  ((sumRedeemed (paymentInstruments b) <= Money.value (totalGrossPrice b))%Q ->
   (Money.value (charge b) + sumRedeemed (paymentInstruments b)
      == Money.value (totalGrossPrice b))%Q).
Proof.
  unfold charge.
  set (T := Money.value (totalGrossPrice b)).
  set (S0 := sumRedeemed (paymentInstruments b)).
  destruct (num_le (T - S0) 0) eqn:E; cbn [Money.value].
  - apply num_le_spec in E. repeat split; try lra.
  - assert (N : ~ (T - S0 <= 0)%Q) by (intro H; apply num_le_spec in H; congruence).
    apply Qnot_le_lt in N. repeat split; try lra.
Qed.

Lemma sumRedeemed_with_amount pre target post m :
  isGiftCertificate target = false ->
  sumRedeemed (pre ++ with_amount m target :: post) = sumRedeemed (pre ++ target :: post).
Proof.
  intro HT. unfold sumRedeemed. rewrite !filter_app. cbn [filter].
  unfold isGiftCertificate at 2 4. cbn [getPaymentMethod paymentMethod with_amount].
  fold (getPaymentMethod target). fold (isGiftCertificate target).
  now rewrite HT.
Qed.

Lemma in_currency_with_amount cur pre target post m :
  isGiftCertificate target = false ->
  in_currency cur (pre ++ target :: post) ->
  in_currency cur (pre ++ with_amount m target :: post).
Proof.
  unfold in_currency. intros HT H. apply Forall_app in H. destruct H as [Hp H].
  inversion_clear H as [|? ? _ Hpost].
  apply Forall_app. split; [assumption|]. constructor; [|assumption].
  unfold isGiftCertificate. cbn [getPaymentMethod paymentMethod with_amount].
  fold (getPaymentMethod target). fold (isGiftCertificate target).
  rewrite HT. discriminate.
Qed.

(** X5: after the balancer has run on a basket (in one currency) with a
    conventional instrument, the payments cover the order: the amount it
    wrote on the conventional instrument is never negative, together
    with the stored-value redemptions it reaches the order total, and it
    meets the total exactly whenever the redemptions do not exceed
    it. *)
Theorem calculatePaymentTransaction_covers_total b pre target post :
  paymentInstruments b = pre ++ target :: post ->
  Forall (fun pi => isGiftCertificate pi = true) pre ->
  isGiftCertificate target = false ->
  single_currency b ->
  exists c b',
    checkoutHelpers.calculatePaymentTransaction b = Normal {| error := false |} b' /\
    paymentInstruments b' = pre ++ with_amount c target :: post /\
    (0 <= Money.value c)%Q /\
    (Money.value (totalGrossPrice b')
       <= Money.value c + sumRedeemed (paymentInstruments b'))%Q /\
    ((sumRedeemed (paymentInstruments b) <= Money.value (totalGrossPrice b))%Q ->
     (Money.value c + sumRedeemed (paymentInstruments b')
        == Money.value (totalGrossPrice b'))%Q).
Proof.
  intros HL HG HT SC. exists (charge b). eexists.
  split; [now apply (calculatePaymentTransaction_run b pre target post)|].
  cbn [paymentInstruments totalGrossPrice set_paymentInstruments].
  split; [reflexivity|].
  rewrite sumRedeemed_with_amount, <- HL by assumption.
  apply charge_covers.
Qed.

Lemma calculatePaymentTransaction_covers_total_witness :
  let pre := [{| id := 1; paymentMethod := METHOD_GIFT_CERTIFICATE;
                 giftCertificateCode := "A"; amount := usd 30 |};
              {| id := 2; paymentMethod := METHOD_GIFT_CERTIFICATE;
                 giftCertificateCode := "B"; amount := usd 5 |}] in
  let target := {| id := 3; paymentMethod := "CREDIT_CARD";
                   giftCertificateCode := ""; amount := usd 65 |} in
  let post := [{| id := 4; paymentMethod := METHOD_GIFT_CERTIFICATE;
                  giftCertificateCode := "B"; amount := usd 7 |}] in
  exists c b',
    checkoutHelpers.calculatePaymentTransaction mixed_basket
      = Normal {| error := false |} b' /\
    paymentInstruments b' = pre ++ with_amount c target :: post /\
    (0 <= Money.value c)%Q /\
    (Money.value (totalGrossPrice b')
       <= Money.value c + sumRedeemed (paymentInstruments b'))%Q /\
    ((sumRedeemed (paymentInstruments mixed_basket)
        <= Money.value (totalGrossPrice mixed_basket))%Q ->
     (Money.value c + sumRedeemed (paymentInstruments b')
        == Money.value (totalGrossPrice b'))%Q).
Proof.
  intros pre target post.
  apply (calculatePaymentTransaction_covers_total mixed_basket pre target post).
  - reflexivity.
  - repeat constructor.
  - reflexivity.
  - split; [reflexivity|repeat constructor].
Defined.

Lemma with_amount_twice m m' pi : with_amount m (with_amount m' pi) = with_amount m pi.
Proof. reflexivity. Qed.

(** X6: the balancer is idempotent.  On a basket (in one currency) with
    a conventional instrument, running it a second time returns the same
    result and leaves the basket the first run produced. *)
Theorem calculatePaymentTransaction_idempotent b pre target post :
  paymentInstruments b = pre ++ target :: post ->
  Forall (fun pi => isGiftCertificate pi = true) pre ->
  isGiftCertificate target = false ->
  single_currency b ->
  exists r b',
    checkoutHelpers.calculatePaymentTransaction b = Normal r b' /\
    checkoutHelpers.calculatePaymentTransaction b' = Normal r b'.
Proof.
  intros HL HG HT SC. do 2 eexists.
  split; [now apply (calculatePaymentTransaction_run b pre target post)|].
  set (b' := set_paymentInstruments (pre ++ with_amount (charge b) target :: post) b).
  assert (HC : charge b' = charge b).
  { unfold charge, b'. cbn [paymentInstruments totalGrossPrice set_paymentInstruments].
    now rewrite sumRedeemed_with_amount, <- HL. }
  rewrite (calculatePaymentTransaction_run b' pre (with_amount (charge b) target) post).
  - rewrite HC, with_amount_twice. reflexivity.
  - reflexivity.
  - assumption.
  - exact HT.
  - destruct SC as [Ht Hc]. split; [exact Ht|].
    unfold b'. cbn [paymentInstruments currencyCode set_paymentInstruments].
    apply in_currency_with_amount; [assumption|]. now rewrite <- HL.
Qed.

Lemma calculatePaymentTransaction_idempotent_witness :
  exists r b',
    checkoutHelpers.calculatePaymentTransaction covered_basket = Normal r b' /\
    checkoutHelpers.calculatePaymentTransaction b' = Normal r b'.
Proof.
  apply (calculatePaymentTransaction_idempotent covered_basket
           [{| id := 1; paymentMethod := METHOD_GIFT_CERTIFICATE;
               giftCertificateCode := "A"; amount := usd 40 |}]
           {| id := 2; paymentMethod := "CREDIT_CARD";
              giftCertificateCode := ""; amount := usd 40 |} []).
  - reflexivity.
  - repeat constructor.
  - reflexivity.
  - split; [reflexivity|repeat constructor].
Defined.

Lemma sum_after_create b gc :
  (sumRedeemed (remaining (getGiftCertificateCode gc) (paymentInstruments b)
                  ++ [redemption b gc])
     <= Money.value (totalGrossPrice b))%Q.
Proof.
  rewrite sumRedeemed_snoc by apply redemption_gift.
  pose proof (redemption_min b gc) as Hmin. unfold orderBalance in Hmin.
  set (R := sumRedeemed (remaining (getGiftCertificateCode gc) (paymentInstruments b))) in *.
  set (T := Money.value (totalGrossPrice b)) in *.
  set (a := Money.value (amount (redemption b gc))) in *.
  assert (a <= T - R)%Q by (rewrite Hmin; apply Q.le_min_r). lra.
Qed.

Lemma single_currency_after_create b gc :
  single_currency b ->
  Money.currencyCode (getBalance gc) = currencyCode b ->
  single_currency
    (set_paymentInstruments
       (remaining (getGiftCertificateCode gc) (paymentInstruments b)
          ++ [redemption b gc]) b).
Proof.
  intros [Ht Hc] Hgc. split; [exact Ht|].
  cbn [paymentInstruments currencyCode set_paymentInstruments].
  apply in_currency_snoc; [now apply in_currency_remaining|].
  now apply redemption_currency.
Qed.

Lemma remaining_around code pre target post :
  isGiftCertificate target = false ->
  remaining code (pre ++ target :: post)
  = remaining code pre ++ target :: remaining code post.
Proof.
  intro HT. unfold remaining. rewrite filter_app. cbn [filter].
  unfold boundTo at 2. now rewrite HT.
Qed.

Lemma remaining_gift code l :
  Forall (fun pi => isGiftCertificate pi = true) l ->
  Forall (fun pi => isGiftCertificate pi = true) (remaining code l).
Proof.
  unfold remaining. rewrite !Forall_forall. intros H x Hx.
  apply filter_In in Hx. destruct Hx. auto.
Qed.

(** X7: applying a certificate and then running the balancer makes the
    payments add up to the order total.  On a basket of distinct
    instruments in one currency whose first conventional instrument is
    [target], and for a certificate in that currency, the two steps
    succeed; [target] keeps its place before the new stored-value
    instrument, its amount is not negative, and that amount plus the
    stored-value redemptions equals the order total. *)
Theorem create_then_calculate_adds_up b gc pre target post :
  paymentInstruments b = pre ++ target :: post ->
  Forall (fun pi => isGiftCertificate pi = true) pre ->
  isGiftCertificate target = false ->
  distinct_instruments b -> single_currency b ->
  Money.currencyCode (getBalance gc) = currencyCode b ->
  let code := getGiftCertificateCode gc in
  exists c pi b2,
    (giftCertHelpers.createGiftCertificatePaymentInstrument gc ;;
     checkoutHelpers.calculatePaymentTransaction) b = Normal {| error := false |} b2 /\
    paymentInstruments b2
      = remaining code pre ++ with_amount c target :: (remaining code post ++ [pi]) /\
    boundTo code pi = true /\
    (0 <= Money.value c)%Q /\
    (Money.value c + sumRedeemed (paymentInstruments b2)
       == Money.value (totalGrossPrice b))%Q.
Proof.
  intros HL HG HT ND SC Hgc code.
  set (b1 := set_paymentInstruments
               (remaining code (paymentInstruments b) ++ [redemption b gc]) b).
  assert (HL1 : paymentInstruments b1
                = remaining code pre ++ target :: (remaining code post ++ [redemption b gc])).
  { unfold b1. cbn [paymentInstruments set_paymentInstruments].
    rewrite HL, remaining_around by assumption.
    rewrite <- app_assoc. reflexivity. }
  assert (SC1 : single_currency b1) by now apply single_currency_after_create.
  exists (charge b1), (redemption b gc). eexists.
  split.
  - unfold bind. rewrite create_on_wellformed by assumption. fold code. fold b1.
    apply (calculatePaymentTransaction_run b1 _ target _ HL1);
      [now apply remaining_gift|assumption|assumption].
  - cbn [paymentInstruments set_paymentInstruments].
    split; [reflexivity|]. split; [apply redemption_bound|].
    rewrite sumRedeemed_with_amount, <- HL1 by assumption.
    pose proof (charge_covers b1) as (Hpos & _ & Heq).
    split; [exact Hpos|].
    apply Heq. unfold b1. cbn [paymentInstruments totalGrossPrice set_paymentInstruments].
    apply sum_after_create.
Qed.

Lemma create_then_calculate_adds_up_witness :
  let pre := [{| id := 1; paymentMethod := METHOD_GIFT_CERTIFICATE;
                 giftCertificateCode := "A"; amount := usd 30 |};
              {| id := 2; paymentMethod := METHOD_GIFT_CERTIFICATE;
                 giftCertificateCode := "B"; amount := usd 5 |}] in
  let target := {| id := 3; paymentMethod := "CREDIT_CARD";
                   giftCertificateCode := ""; amount := usd 65 |} in
  let post := [{| id := 4; paymentMethod := METHOD_GIFT_CERTIFICATE;
                  giftCertificateCode := "B"; amount := usd 7 |}] in
  exists c pi b2,
    (giftCertHelpers.createGiftCertificatePaymentInstrument (certificate "B" 50) ;;
     checkoutHelpers.calculatePaymentTransaction) mixed_basket
      = Normal {| error := false |} b2 /\
    paymentInstruments b2
      = remaining "B" pre ++ with_amount c target :: (remaining "B" post ++ [pi]) /\
    boundTo "B" pi = true /\
    (0 <= Money.value c)%Q /\
    (Money.value c + sumRedeemed (paymentInstruments b2)
       == Money.value (totalGrossPrice mixed_basket))%Q.
Proof.
  intros pre target post.
  apply (create_then_calculate_adds_up mixed_basket (certificate "B" 50) pre target post).
  - reflexivity.
  - repeat constructor.
  - reflexivity.
  - unfold distinct_instruments; simpl.
    repeat constructor; simpl; intuition discriminate.
  - split; [reflexivity|repeat constructor].
  - reflexivity.
Defined.

(** X8: a failure inside the wrapped transaction of the balancer is
    caught.  When the basket has a conventional instrument behind
    stored-value instruments in the basket's currency and computing the
    open amount raises, the balancer returns [{error: true}] and the
    basket is as it was: no amount is written. *)
Theorem calculatePaymentTransaction_catches b pre target post e b0 :
  paymentInstruments b = pre ++ target :: post ->
  Forall (fun pi => isGiftCertificate pi = true) pre ->
  in_currency (currencyCode b) pre ->
  isGiftCertificate target = false ->
  checkoutHelpers.getNonGiftCertificateAmount b = Throw e b0 ->
  checkoutHelpers.calculatePaymentTransaction b = Normal {| error := true |} b.
Proof.
  intros HL HG HC HT Hraise.
  unfold checkoutHelpers.calculatePaymentTransaction.
  unfold bind at 1. unfold gets at 1.
  unfold bind at 1. unfold gets at 1.
  unfold bind at 1. unfold getPaymentInstruments, getCurrencyCode.
  rewrite HL. rewrite locate_prefix by assumption. simpl. rewrite HT.
  unfold ret at 1. unfold bind at 1. unfold gets at 1.
  unfold try_catch, bind at 1, Transaction_wrap. simpl.
  unfold bind at 1. rewrite Hraise. reflexivity.
Qed.

Lemma calculatePaymentTransaction_catches_witness :
  checkoutHelpers.getNonGiftCertificateAmount foreign_basket
    = Throw CurrencyMismatch foreign_basket /\
  checkoutHelpers.calculatePaymentTransaction foreign_basket
    = Normal {| error := true |} foreign_basket.
Proof.
  assert (H : checkoutHelpers.getNonGiftCertificateAmount foreign_basket
              = Throw CurrencyMismatch foreign_basket) by reflexivity.
  split; [exact H|].
  apply (calculatePaymentTransaction_catches foreign_basket []
           {| id := 1; paymentMethod := "CREDIT_CARD";
              giftCertificateCode := ""; amount := usd 40 |}
           [{| id := 2; paymentMethod := METHOD_GIFT_CERTIFICATE;
               giftCertificateCode := "A"; amount := Money.new 10 "EUR" |}]
           CurrencyMismatch foreign_basket).
  - reflexivity.
  - constructor.
  - constructor.
  - reflexivity.
  - exact H.
Defined.

(* ------------------------------------------------------------------ *)
(** ** Placing an order, again                                         *)
(* ------------------------------------------------------------------ *)

(** The [map] step stops at the first issuance that raises: the
    certificates of the line items before it are made, nothing else. *)
Lemma materialize_loop_stops platform lis : forall w,
  all_issued platform lis = false ->
  exists k,
    (k < List.length lis)%nat /\
    mapM (fun lineItem =>
            orderNo <- gets (fun w => Order.orderNo (order w)) ;;
            giftCertHelpers.createGiftCertificateFromLineItem platform lineItem orderNo)
         lis w =
    Throw (PlatformFailure "createGiftCertificate")
      {| order := order w;
         giftCertificates :=
           giftCertificates w
             ++ materialize_all platform (Order.orderNo (order w))
                  (List.length (giftCertificates w)) (firstn k lis);
         trace := trace w ++ map issuance (firstn k lis) |}.
Proof.
  induction lis as [|li lis IH]; intros w Hall; simpl in Hall; [discriminate|].
  destruct (issuance_raises platform (Money.value (netPrice li))) eqn:Hli.
  - exists 0%nat. split; [simpl; lia|].
    cbn [mapM]. unfold bind at 1. unfold bind at 1. unfold gets at 1.
    rewrite createGiftCertificateFromLineItem_raise by assumption.
    cbn [firstn materialize_all map]. rewrite !app_nil_r. destruct w; reflexivity.
  - cbn [negb andb] in Hall.
    set (w1 := {| order := order w;
                  giftCertificates :=
                    giftCertificates w
                      ++ [materialize platform (Order.orderNo (order w))
                            (List.length (giftCertificates w)) li];
                  trace := trace w ++ [issuance li] |}).
    destruct (IH w1 Hall) as (k & Hk & Hrun).
    exists (S k). split; [simpl; lia|].
    cbn [mapM]. unfold bind at 1. unfold bind at 1. unfold gets at 1.
    rewrite createGiftCertificateFromLineItem_run by assumption.
    fold w1. unfold bind at 1. rewrite Hrun.
    unfold w1. cbn [order giftCertificates trace firstn materialize_all map].
    rewrite length_app, Nat.add_1_r, <- !app_assoc. reflexivity.
Qed.

Lemma placeOrder_issuance_stops platform fraud w :
  placement platform = inr Status.OK ->
  let lis := Order.giftCertificateLineItems (order w) in
  all_issued platform lis = false ->
  exists k,
    (k < List.length lis)%nat /\
    checkoutHelpers.placeOrder platform fraud w =
    Normal {| error := true |}
      (failed_after
         {| order := placed fraud (order w);
            giftCertificates :=
              giftCertificates w
                ++ materialize_all platform (Order.orderNo (order w))
                     (List.length (giftCertificates w)) (firstn k lis);
            trace := trace w ++ [EvBegin; EvPlaceOrder]
                       ++ map issuance (firstn k lis) |}).
Proof.
  intros Hp lis Hall.
  unfold checkoutHelpers.placeOrder, try_catch.
  unfold bind at 1. unfold Transaction_begin at 1, modify at 1.
  unfold bind at 1. unfold OrderMgr_placeOrder at 1.
  unfold bind at 1. unfold modify at 1. rewrite Hp.
  unfold bind at 1. unfold modify at 1. unfold ret at 1.
  unfold bind at 1. cbn [Status.eqb]. unfold ret at 1.
  unfold bind at 1.
  assert (Hconf :
    (if String.eqb (fraud_status fraud) "flag"
     then setConfirmationStatus Order.CONFIRMATION_STATUS_NOTCONFIRMED
     else setConfirmationStatus Order.CONFIRMATION_STATUS_CONFIRMED)
    = setConfirmationStatus
        (if String.eqb (fraud_status fraud) "flag"
         then Order.CONFIRMATION_STATUS_NOTCONFIRMED
         else Order.CONFIRMATION_STATUS_CONFIRMED))
    by (destruct (String.eqb _ _); reflexivity).
  rewrite Hconf. clear Hconf.
  unfold setConfirmationStatus at 1, modify at 1.
  unfold bind at 1. unfold setExportStatus at 1, modify at 1.
  unfold bind at 1. unfold gets at 1.
  unfold bind at 1.
  cbn [on_begin World_scope emit on_order order giftCertificates trace
       Order.giftCertificateLineItems Order.with_status Order.with_confirmationStatus
       Order.with_exportStatus].
  fold lis.
  match goal with
  | |- context [mapM ?f lis ?w2] =>
      destruct (materialize_loop_stops platform lis w2 Hall) as (k & Hk & ->)
  end.
  exists k. split; [exact Hk|].
  cbv [bind Transaction_wrap OrderMgr_failOrder modify ret
       on_wrap_enter on_wrap_commit World_scope emit on_order failed_after placed
       order giftCertificates trace Order.orderNo
       Order.with_status Order.with_confirmationStatus Order.with_exportStatus].
  do 2 f_equal. trace_eq.
Qed.

Lemma no_commit_in_failure platform lis gcs :
  ~ In EvCommit (([EvBegin; EvPlaceOrder] ++ map issuance lis
                    ++ map (notification platform) gcs)
                   ++ [EvWrapEnter; EvFailOrder; EvWrapCommit]).
Proof.
  intro H. apply in_app_or in H. destruct H as [H|H].
  - now apply no_commit_before in H.
  - simpl in H. intuition discriminate.
Qed.

(** X9: [placeOrder] never lets an exception out, and its result tells
    what happened to the order.  Whatever the platform answers, it
    returns; with [{error: false}] the order is placed and the commit is
    the last platform call; with [{error: true}] the order is marked as
    failed, [failOrder] was called and the transaction was never
    committed. *)
Theorem placeOrder_always_returns platform fraud w :
  exists r w' t,
    checkoutHelpers.placeOrder platform fraud w = Normal r w' /\
    trace w' = trace w ++ t /\
    (error r = false ->
       Order.status (order w') = Order.ORDER_STATUS_NEW /\
       last t EvBegin = EvCommit) /\
    (error r = true ->
       Order.status (order w') = Order.ORDER_STATUS_FAILED /\
       In EvFailOrder t /\ ~ In EvCommit t).
Proof.
  destruct (placement platform) as [e|[|]] eqn:Hp.
  - do 3 eexists. split; [apply placeOrder_not_placed; rewrite Hp; discriminate|].
    unfold failed_after. cbn [order giftCertificates trace Order.status Order.with_status].
    split; [rewrite <- app_assoc; reflexivity|].
    split; [discriminate|]. intros _. split; [reflexivity|].
    split; simpl; intuition discriminate.
  - destruct (all_issued platform (Order.giftCertificateLineItems (order w))) eqn:Hall.
    + rewrite (placeOrder_placed platform fraud w Hp Hall).
      set (lis := Order.giftCertificateLineItems (order w)).
      set (gcs := materialize_all platform (Order.orderNo (order w))
                    (List.length (giftCertificates w)) lis).
      destruct (all_delivered platform gcs).
      * do 3 eexists. split; [reflexivity|].
        cbn [emit order giftCertificates trace].
        split; [rewrite <- app_assoc; reflexivity|].
        split; [|discriminate]. intros _. split; [reflexivity|].
        apply last_last.
      * do 3 eexists. split; [reflexivity|].
        unfold failed_after. cbn [order giftCertificates trace Order.status Order.with_status].
        split; [rewrite <- app_assoc; reflexivity|].
        split; [discriminate|]. intros _. split; [reflexivity|].
        split; [apply in_or_app; right; simpl; auto|].
        apply no_commit_in_failure.
    + destruct (placeOrder_issuance_stops platform fraud w Hp Hall) as (k & _ & ->).
      do 3 eexists. split; [reflexivity|].
      unfold failed_after. cbn [order giftCertificates trace Order.status Order.with_status].
      split; [rewrite <- app_assoc; reflexivity|].
      split; [discriminate|]. intros _. split; [reflexivity|].
      split; [apply in_or_app; right; simpl; auto|].
      intro H. apply in_app_or in H. destruct H as [H|H].
      * simpl in H. destruct H as [H|[H|H]]; try discriminate.
        apply in_map_iff in H. destruct H as (x & Hx & _). discriminate.
      * simpl in H. intuition discriminate.
  - do 3 eexists. split; [apply placeOrder_not_placed; rewrite Hp; discriminate|].
    unfold failed_after. cbn [order giftCertificates trace Order.status Order.with_status].
    split; [rewrite <- app_assoc; reflexivity|].
    split; [discriminate|]. intros _. split; [reflexivity|].
    split; simpl; intuition discriminate.
Qed.

(** X10: a placement call that raises is handled like one that returns
    the error status: [placeOrder] returns [{error: true}], no
    certificate is materialized, no notification is dispatched, and
    [failOrder] marks the order as failed in a wrapped transaction of
    its own. *)
Theorem placeOrder_placement_raises platform fraud w e :
  placement platform = inl e ->
  exists w',
    checkoutHelpers.placeOrder platform fraud w = Normal {| error := true |} w' /\
    giftCertificates w' = giftCertificates w /\
    trace w' = trace w ++ [EvBegin; EvPlaceOrder; EvWrapEnter; EvFailOrder; EvWrapCommit] /\
    Order.status (order w') = Order.ORDER_STATUS_FAILED.
Proof.
  intro Hp. eexists. split.
  - apply placeOrder_not_placed. rewrite Hp. discriminate.
  - unfold failed_after; cbn [order giftCertificates trace Order.status Order.with_status].
    rewrite <- app_assoc. repeat split.
Qed.

Lemma placeOrder_placement_raises_witness :
  placement raising_platform = inl (PlatformFailure "placeOrder") /\
  exists w',
    checkoutHelpers.placeOrder raising_platform not_flagged before_placement
      = Normal {| error := true |} w' /\
    giftCertificates w' = giftCertificates before_placement /\
    trace w' = trace before_placement
                 ++ [EvBegin; EvPlaceOrder; EvWrapEnter; EvFailOrder; EvWrapCommit] /\
    Order.status (order w') = Order.ORDER_STATUS_FAILED.
Proof.
  split; [reflexivity|].
  exact (placeOrder_placement_raises raising_platform not_flagged before_placement
           (PlatformFailure "placeOrder") eq_refl).
Defined.

(** X11: every certificate is made before the first notification goes
    out.  When the placement call succeeds and the issuance of a
    certificate raises, [placeOrder] returns [{error: true}] and marks
    the order as failed; the issuances stop at the one that raised, and
    no notification at all has been dispatched, not even for the
    certificates made before it. *)
Theorem placeOrder_issuance_raises platform fraud w :
  placement platform = inr Status.OK ->
  let lis := Order.giftCertificateLineItems (order w) in
  all_issued platform lis = false ->
  exists w' t k,
    checkoutHelpers.placeOrder platform fraud w = Normal {| error := true |} w' /\
    trace w' = trace w ++ t /\
    (k < List.length lis)%nat /\
    issued t = map (fun li => Money.value (netPrice li)) (firstn k lis) /\
    notified t = [] /\
    In EvFailOrder t /\
    Order.status (order w') = Order.ORDER_STATUS_FAILED.
Proof.
  intros Hp lis Hall.
  destruct (placeOrder_issuance_stops platform fraud w Hp Hall) as (k & Hk & ->).
  fold lis.
  exists (failed_after
            {| order := placed fraud (order w);
               giftCertificates :=
                 giftCertificates w
                   ++ materialize_all platform (Order.orderNo (order w))
                        (List.length (giftCertificates w)) (firstn k lis);
               trace := trace w ++ [EvBegin; EvPlaceOrder]
                          ++ map issuance (firstn k lis) |}).
  exists (([EvBegin; EvPlaceOrder] ++ map issuance (firstn k lis))
            ++ [EvWrapEnter; EvFailOrder; EvWrapCommit]).
  exists k.
  split; [reflexivity|].
  unfold failed_after. cbn [order giftCertificates trace Order.status Order.with_status].
  split; [trace_eq|]. split; [exact Hk|].
  rewrite !issued_app, !notified_app, issued_issuances, notified_issuances.
  cbn [issued notified app]. rewrite !app_nil_r.
  split; [reflexivity|]. split; [reflexivity|]. split; [|reflexivity].
  right. right. apply in_or_app. right. simpl. auto.
Qed.

Lemma placeOrder_issuance_raises_witness :
  placement ten_refusing_platform = inr Status.OK /\
  all_issued ten_refusing_platform
    (Order.giftCertificateLineItems (order before_placement)) = false /\
  exists w' t k,
    checkoutHelpers.placeOrder ten_refusing_platform not_flagged before_placement
      = Normal {| error := true |} w' /\
    trace w' = trace before_placement ++ t /\
    (k < List.length (Order.giftCertificateLineItems (order before_placement)))%nat /\
    issued t = map (fun li => Money.value (netPrice li))
                   (firstn k (Order.giftCertificateLineItems (order before_placement))) /\
    notified t = [] /\
    In EvFailOrder t /\
    Order.status (order w') = Order.ORDER_STATUS_FAILED.
Proof.
  split; [reflexivity|]. split; [reflexivity|].
  exact (placeOrder_issuance_raises ten_refusing_platform not_flagged before_placement
           eq_refl eq_refl).
Defined.

(** X12: the statuses of a placed order.  When [placeOrder] returns
    [{error: false}] the order is placed, its export status is ready,
    and its confirmation status is "not confirmed" exactly when the
    status of the fraud detection is the string "flag" and "confirmed"
    otherwise; its number and its line items are as before. *)
Theorem placeOrder_sets_statuses platform fraud w r w' :
  checkoutHelpers.placeOrder platform fraud w = Normal r w' ->
  error r = false ->
  Order.status (order w') = Order.ORDER_STATUS_NEW /\
  Order.exportStatus (order w') = Order.EXPORT_STATUS_READY /\
  (fraud_status fraud = "flag"%string ->
   Order.confirmationStatus (order w') = Order.CONFIRMATION_STATUS_NOTCONFIRMED) /\
  (fraud_status fraud <> "flag"%string ->
   Order.confirmationStatus (order w') = Order.CONFIRMATION_STATUS_CONFIRMED) /\
  Order.orderNo (order w') = Order.orderNo (order w) /\
  Order.giftCertificateLineItems (order w') = Order.giftCertificateLineItems (order w).
Proof.
  intros Hrun Herr.
  destruct (placement platform) as [e|[|]] eqn:Hp.
  - rewrite placeOrder_not_placed in Hrun by (rewrite Hp; discriminate).
    injection Hrun as <- _. discriminate.
  - destruct (all_issued platform (Order.giftCertificateLineItems (order w))) eqn:Hall.
    + rewrite (placeOrder_placed platform fraud w Hp Hall) in Hrun.
      destruct (all_delivered _ _).
      * injection Hrun as _ <-.
        cbn [emit order placed Order.status Order.exportStatus Order.confirmationStatus
             Order.orderNo Order.giftCertificateLineItems Order.with_status
             Order.with_confirmationStatus Order.with_exportStatus].
        repeat split.
        -- intros ->. reflexivity.
        -- intro N. apply String.eqb_neq in N. now rewrite N.
      * injection Hrun as <- _. discriminate.
    + destruct (placeOrder_not_issued platform fraud w Hp Hall) as (w1 & H1).
      rewrite H1 in Hrun. injection Hrun as <- _. discriminate.
  - rewrite placeOrder_not_placed in Hrun by (rewrite Hp; discriminate).
    injection Hrun as <- _. discriminate.
Qed.

Lemma placeOrder_sets_statuses_witness :
  exists w',
    checkoutHelpers.placeOrder reliable_platform flagged before_placement
      = Normal {| error := false |} w' /\
    Order.status (order w') = Order.ORDER_STATUS_NEW /\
    Order.exportStatus (order w') = Order.EXPORT_STATUS_READY /\
    (fraud_status flagged = "flag"%string ->
     Order.confirmationStatus (order w') = Order.CONFIRMATION_STATUS_NOTCONFIRMED) /\
    (fraud_status flagged <> "flag"%string ->
     Order.confirmationStatus (order w') = Order.CONFIRMATION_STATUS_CONFIRMED) /\
    Order.orderNo (order w') = Order.orderNo (order before_placement) /\
    Order.giftCertificateLineItems (order w')
    = Order.giftCertificateLineItems (order before_placement).
Proof.
  eexists. split; [vm_compute; reflexivity|].
  eapply (placeOrder_sets_statuses reliable_platform flagged before_placement
            {| error := false |}).
  - vm_compute. reflexivity.
  - reflexivity.
Defined.

(** X13: the e-mail for a certificate.  [sendGiftCertificateEmail]
    addresses the message to the recipient of the certificate, uses the
    template "mail/giftcert" with the certificate as context, and sends
    it from the customer-service address of the site, or from
    [no-reply@salesforce.com] when that preference is not set or empty:
    the sender address is never empty.  If the transport raises, the
    exception goes to the caller and nothing is recorded. *)
Theorem sendGiftCertificateEmail_envelope platform ref gc w :
  nth_error (giftCertificates w) ref = Some gc ->
  (delivery_raises platform gc = false ->
   giftCertHelpers.sendGiftCertificateEmail platform ref w
   = Normal tt (emit (EvSendEmail (envelope platform gc) "mail/giftcert" gc) w)) /\
  (delivery_raises platform gc = true ->
   giftCertHelpers.sendGiftCertificateEmail platform ref w
   = Throw (PlatformFailure "sendEmail") w) /\
  to (envelope platform gc) = gc_recipientEmail gc /\
  email_from (envelope platform gc) <> ""%string /\
  (forall s, customerServiceEmail platform = Some s -> s <> ""%string ->
             email_from (envelope platform gc) = s) /\
  (customerServiceEmail platform = None \/ customerServiceEmail platform = Some ""%string ->
   email_from (envelope platform gc) = "no-reply@salesforce.com"%string).
Proof.
  intro Hnth.
  assert (Hrun : giftCertHelpers.sendGiftCertificateEmail platform ref w =
                 emailHelpers_sendEmail platform (envelope platform gc) "mail/giftcert" gc w).
  { unfold giftCertHelpers.sendGiftCertificateEmail, bind, deref. now rewrite Hnth. }
  rewrite Hrun. unfold emailHelpers_sendEmail.
  split; [intros ->; reflexivity|].
  split; [intros ->; reflexivity|].
  split; [reflexivity|].
  unfold envelope, preference_or. cbn [email_from].
  split; [|split].
  - destruct (customerServiceEmail platform) as [s|]; [|discriminate].
    destruct (String.eqb_spec s ""); [discriminate|assumption].
  - intros s -> Hs. apply String.eqb_neq in Hs. now rewrite Hs.
  - intros [->| ->]; reflexivity.
Qed.

Lemma sendGiftCertificateEmail_envelope_witness :
  nth_error (giftCertificates after_placement) 1 =
    Some {| gc_code := "B"; gc_balance := usd 10;
            gc_recipientEmail := "cid@example.com"; gc_recipientName := "Cid";
            gc_senderName := "Ann"; gc_message := "Thank you";
            gc_orderNo := "00000001" |} /\
  giftCertHelpers.sendGiftCertificateEmail ten_refusing_platform 1 after_placement
  = Normal tt
      (emit (EvSendEmail
               {| to := "cid@example.com";
                  subject := "resource.ordergcemsg Ann";
                  email_from := "service@example.com";
                  type := orderConfirmation |}
               "mail/giftcert"
               {| gc_code := "B"; gc_balance := usd 10;
                  gc_recipientEmail := "cid@example.com"; gc_recipientName := "Cid";
                  gc_senderName := "Ann"; gc_message := "Thank you";
                  gc_orderNo := "00000001" |})
            after_placement).
Proof.
  split; [reflexivity|].
  exact (proj1 (sendGiftCertificateEmail_envelope ten_refusing_platform 1
                  {| gc_code := "B"; gc_balance := usd 10;
                     gc_recipientEmail := "cid@example.com"; gc_recipientName := "Cid";
                     gc_senderName := "Ann"; gc_message := "Thank you";
                     gc_orderNo := "00000001" |}
                  after_placement eq_refl) eq_refl).
Defined.

(* ------------------------------------------------------------------ *)
(** ** Line items, again                                               *)
(* ------------------------------------------------------------------ *)

(** X14: [getGiftCertificateLineItemByUUID] returns [null] exactly when
    no line item has the UUID, and otherwise the first line item that
    has it: no line item before it does. *)
Theorem getGiftCertificateLineItemByUUID_first lineItems uuid :
  match giftCertHelpers.getGiftCertificateLineItemByUUID lineItems uuid with
  | None => forall li, In li lineItems -> UUID li <> uuid
  | Some ref =>
      exists li,
        nth_error lineItems ref = Some li /\ UUID li = uuid /\
        forall i li', (i < ref)%nat -> nth_error lineItems i = Some li' ->
                      UUID li' <> uuid
  end.
Proof.
  induction lineItems as [|x l IH]; simpl; [intros li []|].
  destruct (String.eqb_spec (UUID x) uuid) as [E|N].
  - exists x. repeat split; auto. intros i li' Hi. lia.
  - destruct (giftCertHelpers.getGiftCertificateLineItemByUUID l uuid) as [ref|]; simpl.
    + destruct IH as (li & Hn & Hu & Hbefore).
      exists li. repeat split; auto.
      intros [|i] li' Hi Hnth; simpl in Hnth.
      * now injection Hnth as <-.
      * apply (Hbefore i li'); [lia|assumption].
    + intros li [<-|Hin]; auto.
Qed.

Lemma lookup_none lineItems uuid :
  (forall li, In li lineItems -> UUID li <> uuid) ->
  giftCertHelpers.getGiftCertificateLineItemByUUID lineItems uuid = None.
Proof.
  induction lineItems as [|x l IH]; intro H; simpl; [reflexivity|].
  destruct (String.eqb_spec (UUID x) uuid) as [E|N].
  - exfalso. apply (H x); [now left|assumption].
  - rewrite IH; [reflexivity|]. intros li Hin. apply H. now right.
Qed.

Lemma lookup_some_in lineItems uuid : forall ref,
  giftCertHelpers.getGiftCertificateLineItemByUUID lineItems uuid = Some ref ->
  exists li, nth_error lineItems ref = Some li /\ UUID li = uuid.
Proof.
  induction lineItems as [|x l IH]; simpl; intros ref H; [discriminate|].
  destruct (String.eqb_spec (UUID x) uuid) as [E|N].
  - injection H as <-. exists x. auto.
  - destruct (giftCertHelpers.getGiftCertificateLineItemByUUID l uuid) as [r|];
      [|discriminate].
    injection H as <-. destruct (IH r eq_refl) as (li & Hn & Hu). exists li. auto.
Qed.

Lemma updateGiftCert_none purchaseForm b :
  fvalue (lineItemId purchaseForm) = ""%string \/
  giftCertHelpers.getGiftCertificateLineItemByUUID
    (giftCertificateLineItems b) (fvalue (lineItemId purchaseForm)) = None ->
  giftCertHelpers.updateGiftCert purchaseForm b = Normal None b.
Proof.
  intro H. unfold giftCertHelpers.updateGiftCert.
  unfold bind, gets, getGiftCertificateLineItems.
  destruct H as [-> | ->].
  - cbn [empty String.eqb negb]. rewrite andb_false_r. reflexivity.
  - destruct (_ && _); reflexivity.
Qed.

(** X15: [updateGiftCert] returns [null] and leaves the basket as it was
    exactly when the line-item id of the form is empty or no line item
    of the basket has it (an empty basket is such a case). *)
Theorem updateGiftCert_null purchaseForm b :
  giftCertHelpers.updateGiftCert purchaseForm b = Normal None b <->
  (fvalue (lineItemId purchaseForm) = ""%string \/
   forall li, In li (giftCertificateLineItems b) ->
              UUID li <> fvalue (lineItemId purchaseForm)).
Proof.
  split.
  - intro Hrun.
    destruct (String.eqb_spec (fvalue (lineItemId purchaseForm)) "") as [E|N];
      [now left|right].
    intros li Hin Hu.
    destruct (lookup_found (giftCertificateLineItems b)
                (fvalue (lineItemId purchaseForm)) li Hin Hu)
      as (ref & li0 & Hfind & _ & _).
    rewrite (updateGiftCert_run purchaseForm b ref N Hfind) in Hrun.
    discriminate.
  - intros [E|Hno]; apply updateGiftCert_none; [now left|right].
    now apply lookup_none.
Qed.

Lemma nth_error_update_nth_other {A} (f : A -> A) l : forall n i,
  i <> n -> nth_error (update_nth n f l) i = nth_error l i.
Proof.
  induction l as [|x l IH]; intros [|n] [|i] H; simpl; auto.
  contradiction.
Qed.

Lemma map_update_nth {A B} (g : A -> B) (f : A -> A) l :
  (forall x, g (f x) = g x) -> forall n, map g (update_nth n f l) = map g l.
Proof.
  intro E. induction l as [|x l IH]; intros [|n]; simpl; auto.
  - now rewrite E.
  - now rewrite IH.
Qed.

(** X16: [updateGiftCert] edits one line item and nothing else.  When
    it returns a line item, that line item is the first one with the id
    of the form; it keeps its UUID and the currency of its prices, and
    takes sender, recipient, e-mail, message and the three prices from
    the form.  Every other line item, the number and the UUIDs of the
    line items, the payment instruments, the order total and the
    currency of the basket are as before. *)
Theorem updateGiftCert_frame purchaseForm b ref b' :
  giftCertHelpers.updateGiftCert purchaseForm b = Normal (Some ref) b' ->
  (exists li,
      nth_error (giftCertificateLineItems b) ref = Some li /\
      UUID li = fvalue (lineItemId purchaseForm) /\
      nth_error (giftCertificateLineItems b') ref = Some (edited purchaseForm li)) /\
  (forall i, i <> ref ->
             nth_error (giftCertificateLineItems b') i
             = nth_error (giftCertificateLineItems b) i) /\
  map UUID (giftCertificateLineItems b') = map UUID (giftCertificateLineItems b) /\
  paymentInstruments b' = paymentInstruments b /\
  totalGrossPrice b' = totalGrossPrice b /\
  currencyCode b' = currencyCode b /\
  productQuantityTotal b' = productQuantityTotal b.
Proof.
  intro Hrun.
  destruct (String.eqb_spec (fvalue (lineItemId purchaseForm)) "") as [E|N].
  { rewrite updateGiftCert_none in Hrun by now left. discriminate. }
  destruct (giftCertHelpers.getGiftCertificateLineItemByUUID
              (giftCertificateLineItems b) (fvalue (lineItemId purchaseForm)))
    as [r|] eqn:Hfind.
  2:{ rewrite updateGiftCert_none in Hrun by now right. discriminate. }
  rewrite (updateGiftCert_run purchaseForm b r N Hfind) in Hrun.
  injection Hrun as <- <-.
  cbn [giftCertificateLineItems paymentInstruments totalGrossPrice currencyCode
       productQuantityTotal set_giftCertificateLineItems].
  destruct (lookup_some_in _ _ _ Hfind) as (li & Hn & Hu).
  split; [|split; [|split]].
  - exists li. repeat split; auto. now apply nth_error_update_nth.
  - intros i Hi. now apply nth_error_update_nth_other.
  - now apply map_update_nth.
  - repeat split.
Qed.

Lemma updateGiftCert_frame_witness :
  exists ref b',
    giftCertHelpers.updateGiftCert edit_second gift_basket = Normal (Some ref) b' /\
    (exists li,
        nth_error (giftCertificateLineItems gift_basket) ref = Some li /\
        UUID li = fvalue (lineItemId edit_second) /\
        nth_error (giftCertificateLineItems b') ref = Some (edited edit_second li)) /\
    (forall i, i <> ref ->
               nth_error (giftCertificateLineItems b') i
               = nth_error (giftCertificateLineItems gift_basket) i) /\
    map UUID (giftCertificateLineItems b') = map UUID (giftCertificateLineItems gift_basket) /\
    paymentInstruments b' = paymentInstruments gift_basket /\
    totalGrossPrice b' = totalGrossPrice gift_basket /\
    currencyCode b' = currencyCode gift_basket /\
    productQuantityTotal b' = productQuantityTotal gift_basket.
Proof.
  do 2 eexists. split; [vm_compute; reflexivity|].
  eapply (updateGiftCert_frame edit_second gift_basket).
  vm_compute. reflexivity.
Defined.

Lemma createGiftCert_run newUUID purchaseForm b :
  giftCertHelpers.createGiftCert newUUID purchaseForm b =
  Normal (Some (List.length (giftCertificateLineItems b)))
    (set_giftCertificateLineItems
       (giftCertificateLineItems b ++ [requested newUUID purchaseForm (currencyCode b)]) b).
Proof.
  unfold giftCertHelpers.createGiftCert.
  cbv [bind Transaction_wrap Basket_createGiftCertificateLineItem assign modify ret
       on_wrap_enter on_wrap_commit Basket_scope set_giftCertificateLineItems
       giftCertificateLineItems paymentInstruments totalGrossPrice currencyCode
       productQuantityTotal].
  rewrite !update_nth_last. reflexivity.
Qed.

Lemma lookup_app_fresh l x uuid :
  (forall li, In li l -> UUID li <> uuid) -> UUID x = uuid ->
  giftCertHelpers.getGiftCertificateLineItemByUUID (l ++ [x]) uuid
  = Some (List.length l).
Proof.
  intros Hno Hx. induction l as [|y l IH]; simpl.
  - apply String.eqb_eq in Hx. now rewrite Hx.
  - destruct (String.eqb_spec (UUID y) uuid) as [E|N].
    + exfalso. apply (Hno y); [now left|assumption].
    + rewrite IH; [reflexivity|]. intros li Hin. apply Hno. now right.
Qed.

(** X17: [createGiftCert] adds exactly one line item, after those of the
    basket, and returns it, never [null]; the line items already there
    and the payment instruments are untouched.  The form data rebuilt
    from the new line item carries the from, recipient, recipient
    e-mail, message and amount values of the form, under either
    taxation policy. *)
Theorem createGiftCert_appends policy newUUID purchaseForm b :
  exists li b',
    giftCertHelpers.createGiftCert newUUID purchaseForm b
      = Normal (Some (List.length (giftCertificateLineItems b))) b' /\
    giftCertificateLineItems b' = giftCertificateLineItems b ++ [li] /\
    paymentInstruments b' = paymentInstruments b /\
    totalGrossPrice b' = totalGrossPrice b /\
    giftCertHelpers.getGiftLineItemObj policy li =
    {| obj_from := fvalue (from purchaseForm);
       obj_lineItemId := newUUID;
       obj_recipient := fvalue (recipient purchaseForm);
       obj_recipientEmail := fvalue (form_recipientEmail purchaseForm);
       obj_confirmRecipientEmail := fvalue (form_recipientEmail purchaseForm);
       obj_message := fvalue (form_message purchaseForm);
       obj_amount := fvalue (form_amount purchaseForm) |}.
Proof.
  exists (requested newUUID purchaseForm (currencyCode b)). eexists.
  split; [apply createGiftCert_run|].
  cbn [giftCertificateLineItems paymentInstruments totalGrossPrice
       set_giftCertificateLineItems].
  repeat split. destruct policy; reflexivity.
Qed.

(** X18: a line item can be edited through the UUID it was created
    with.  When the UUID is not empty and no line item of the basket has
    it, creating a line item from one form and then updating through a
    second form that carries this UUID succeeds, returns the new line
    item, and leaves the basket as if the line item had been created
    from the second form. *)
Theorem createGiftCert_then_updateGiftCert newUUID form1 form2 b :
  newUUID <> ""%string ->
  (forall li, In li (giftCertificateLineItems b) -> UUID li <> newUUID) ->
  fvalue (lineItemId form2) = newUUID ->
  (giftCertHelpers.createGiftCert newUUID form1 ;;
   giftCertHelpers.updateGiftCert form2) b
  = Normal (Some (List.length (giftCertificateLineItems b)))
      (set_giftCertificateLineItems
         (giftCertificateLineItems b ++ [requested newUUID form2 (currencyCode b)]) b) /\
  giftCertHelpers.createGiftCert newUUID form2 b
  = Normal (Some (List.length (giftCertificateLineItems b)))
      (set_giftCertificateLineItems
         (giftCertificateLineItems b ++ [requested newUUID form2 (currencyCode b)]) b).
Proof.
  intros Hne Hfresh Hid.
  split; [|apply createGiftCert_run].
  unfold bind. rewrite createGiftCert_run.
  rewrite (updateGiftCert_run form2 _ (List.length (giftCertificateLineItems b))).
  - cbn [giftCertificateLineItems set_giftCertificateLineItems
         paymentInstruments totalGrossPrice currencyCode productQuantityTotal].
    rewrite update_nth_last. reflexivity.
  - now rewrite Hid.
  - cbn [giftCertificateLineItems set_giftCertificateLineItems]. rewrite Hid.
    now apply lookup_app_fresh.
Qed.

Lemma createGiftCert_then_updateGiftCert_witness :
  "li-3"%string <> ""%string /\
  (forall li, In li (giftCertificateLineItems gift_basket) -> UUID li <> "li-3"%string) /\
  (giftCertHelpers.createGiftCert "li-3" edit_second ;;
   giftCertHelpers.updateGiftCert edit_third) gift_basket
  = Normal (Some 2%nat)
      (set_giftCertificateLineItems
         (giftCertificateLineItems gift_basket ++ [requested "li-3" edit_third "USD"])
         gift_basket).
Proof.
  assert (Hne : "li-3"%string <> ""%string) by discriminate.
  assert (Hfresh : forall li, In li (giftCertificateLineItems gift_basket) ->
                              UUID li <> "li-3"%string).
  { intros li [<-|[<-|[]]]; discriminate. }
  split; [exact Hne|]. split; [exact Hfresh|].
  exact (proj1 (createGiftCert_then_updateGiftCert "li-3" edit_second edit_third
                  gift_basket Hne Hfresh eq_refl)).
Defined.

(* ------------------------------------------------------------------ *)
(** ** The purchase form, again                                        *)
(* ------------------------------------------------------------------ *)

(** X19: what [processAddToBasket] does to the fields.  It changes no
    value and leaves the from, recipient, message and line-item-id
    fields alone.  On an e-mail mismatch both e-mail fields are marked
    invalid and the confirmation field alone gets the mismatch message;
    an amount field that is valid and out of range is marked invalid
    with the amount message; otherwise these fields keep their flags and
    messages.  Amounts of exactly 5 and exactly 5000, and the amount of
    a field that is already invalid, are not rejected. *)
Theorem processAddToBasket_fields form :
  let out := giftCertHelpers.processAddToBasket form in
  let p := purchase form in
  let q := purchase out in
  from q = from p /\ recipient q = recipient p /\
  form_message q = form_message p /\ lineItemId q = lineItemId p /\
  fvalue (form_recipientEmail q) = fvalue (form_recipientEmail p) /\
  fvalue (confirmRecipientEmail q) = fvalue (confirmRecipientEmail p) /\
  fvalue (form_amount q) = fvalue (form_amount p) /\
  form_recipientEmail q
    = (if email_mismatch form then giftCertHelpers.invalidate None (form_recipientEmail p)
       else form_recipientEmail p) /\
  confirmRecipientEmail q
    = (if email_mismatch form
       then giftCertHelpers.invalidate (Some "error.message.mismatch.email"%string)
                       (confirmRecipientEmail p)
       else confirmRecipientEmail p) /\
  form_amount q
    = (if amount_out_of_range form
       then giftCertHelpers.invalidate (Some "giftcert.amountparseerror"%string) (form_amount p)
       else form_amount p) /\
  ((5 <= fvalue (form_amount p))%Q -> (fvalue (form_amount p) <= 5000)%Q ->
   form_amount q = form_amount p) /\
  (fvalid (form_amount p) = false -> form_amount q = form_amount p).
Proof.
  intros out p q. subst out p q.
  unfold giftCertHelpers.processAddToBasket, email_mismatch, amount_out_of_range.
  destruct (negb _) eqn:Em;
    cbn [purchase form_amount valid];
    destruct (fvalid (form_amount (purchase form))) eqn:Ev;
    destruct (num_lt (fvalue (form_amount (purchase form))) 5) eqn:E5;
    destruct (num_gt (fvalue (form_amount (purchase form))) 5000) eqn:E5000;
    cbn [andb orb purchase from recipient form_message lineItemId form_recipientEmail
         confirmRecipientEmail form_amount giftCertHelpers.invalidate fvalue];
    repeat split; try reflexivity; try discriminate; intros H5 H5000;
    try (apply num_lt_spec in E5; exfalso; eapply Qlt_not_le; eauto; fail);
    try (unfold num_gt in E5000; apply num_lt_spec in E5000; exfalso;
         eapply Qlt_not_le; eauto; fail).
Qed.

(** X20: [processAddToBasket] is idempotent: validating a form it has
    already validated changes nothing. *)
Theorem processAddToBasket_idempotent form :
  giftCertHelpers.processAddToBasket (giftCertHelpers.processAddToBasket form)
  = giftCertHelpers.processAddToBasket form.
Proof.
  unfold giftCertHelpers.processAddToBasket.
  destruct (negb (String.eqb
                    (toLowerCase (fvalue (form_recipientEmail (purchase form))))
                    (toLowerCase (fvalue (confirmRecipientEmail (purchase form))))))
    eqn:Em;
    cbn [purchase form_amount form_recipientEmail confirmRecipientEmail valid
         giftCertHelpers.invalidate fvalue fvalid];
    destruct (fvalid (form_amount (purchase form))) eqn:Ev;
    destruct (num_lt (fvalue (form_amount (purchase form))) 5
              || num_gt (fvalue (form_amount (purchase form))) 5000) eqn:Er;
    cbn [andb purchase form_amount form_recipientEmail confirmRecipientEmail valid
         giftCertHelpers.invalidate fvalue fvalid];
    rewrite ?Em, ?Ev, ?Er;
    cbn [andb purchase form_amount form_recipientEmail confirmRecipientEmail valid
         giftCertHelpers.invalidate fvalue fvalid from recipient form_message lineItemId ferror];
    rewrite ?Em, ?Ev, ?Er;
    try reflexivity;
    destruct form as [[f r e c m a l] v]; reflexivity.
Qed.

(* ------------------------------------------------------------------ *)
(** ** The open amount and the first loop of the balancer              *)
(* ------------------------------------------------------------------ *)

(** X21: [getNonGiftCertificateAmount] only reads.  On a basket in one
    currency it returns the order total minus the redemptions of all
    stored-value instruments, in the currency of the order total, and
    leaves the basket as it was; the result is not clamped: it is
    negative when the redemptions exceed the order total. *)
Theorem getNonGiftCertificateAmount_open_amount b :
  single_currency b ->
  exists amountOpen,
    checkoutHelpers.getNonGiftCertificateAmount b = Normal amountOpen b /\
    Money.value amountOpen
    = (Money.value (totalGrossPrice b) - sumRedeemed (paymentInstruments b))%Q /\
    Money.currencyCode amountOpen = Money.currencyCode (totalGrossPrice b) /\
    ((Money.value (totalGrossPrice b) < sumRedeemed (paymentInstruments b))%Q ->
     (Money.value amountOpen < 0)%Q).
Proof.
  intro SC. eexists. split; [now apply getNonGiftCertificateAmount_run|].
  cbn [Money.value Money.currencyCode]. repeat split. intro H. lra.
Qed.

Lemma getNonGiftCertificateAmount_open_amount_witness :
  single_currency overpaid_basket /\
  exists amountOpen,
    checkoutHelpers.getNonGiftCertificateAmount overpaid_basket
      = Normal amountOpen overpaid_basket /\
    Money.value amountOpen
    = (Money.value (totalGrossPrice overpaid_basket)
       - sumRedeemed (paymentInstruments overpaid_basket))%Q /\
    Money.currencyCode amountOpen = Money.currencyCode (totalGrossPrice overpaid_basket) /\
    ((Money.value (totalGrossPrice overpaid_basket)
        < sumRedeemed (paymentInstruments overpaid_basket))%Q ->
     (Money.value amountOpen < 0)%Q).
Proof.
  assert (SC : single_currency overpaid_basket).
  { split; [reflexivity|repeat constructor]. }
  split; [exact SC|].
  exact (getNonGiftCertificateAmount_open_amount overpaid_basket SC).
Defined.

(** X22: the first loop of the balancer runs outside its [try] block.
    When a stored-value instrument that the loop reaches (one with only
    stored-value instruments in the basket's currency before it) has its
    redemption in another currency, the exception of the addition leaves
    [calculatePaymentTransaction]: no result object is returned, and the
    basket is as it was. *)
Theorem calculatePaymentTransaction_loop_not_guarded b pre x post :
  paymentInstruments b = pre ++ x :: post ->
  Forall (fun pi => isGiftCertificate pi = true) pre ->
  in_currency (currencyCode b) pre ->
  isGiftCertificate x = true ->
  Money.currencyCode (amount x) <> currencyCode b ->
  checkoutHelpers.calculatePaymentTransaction b = Throw CurrencyMismatch b.
Proof.
  intros HL HG HC Hx Hcur.
  unfold checkoutHelpers.calculatePaymentTransaction.
  unfold bind at 1. unfold gets at 1.
  unfold bind at 1. unfold gets at 1.
  unfold bind at 1. unfold getPaymentInstruments, getCurrencyCode.
  rewrite HL. rewrite locate_prefix by assumption.
  cbn [checkoutHelpers.locate]. rewrite Hx.
  unfold bind at 1. unfold Money.add. cbn [Money.currencyCode].
  assert (E : String.eqb (currencyCode b) (Money.currencyCode (amount x)) = false).
  { apply String.eqb_neq. intro E. apply Hcur. now symmetry. }
  rewrite E. reflexivity.
Qed.

Lemma calculatePaymentTransaction_loop_not_guarded_witness :
  checkoutHelpers.calculatePaymentTransaction
    (set_paymentInstruments (rev (paymentInstruments foreign_basket)) foreign_basket)
  = Throw CurrencyMismatch
      (set_paymentInstruments (rev (paymentInstruments foreign_basket)) foreign_basket).
Proof.
  apply (calculatePaymentTransaction_loop_not_guarded
           (set_paymentInstruments (rev (paymentInstruments foreign_basket)) foreign_basket)
           []
           {| id := 2; paymentMethod := METHOD_GIFT_CERTIFICATE;
              giftCertificateCode := "A"; amount := Money.new 10 "EUR" |}
           [{| id := 1; paymentMethod := "CREDIT_CARD";
               giftCertificateCode := ""; amount := usd 40 |}]).
  - reflexivity.
  - constructor.
  - constructor.
  - reflexivity.
  - discriminate.
Defined.

(* ------------------------------------------------------------------ *)
(** ** Making one certificate                                          *)
(* ------------------------------------------------------------------ *)

(** X23: [createGiftCertificateFromLineItem] adds one certificate or
    nothing.  When the issuance succeeds it returns a reference to a new
    certificate, placed after the certificates the platform held, which
    are unchanged; the new certificate has the net price of the line
    item as balance, its recipient e-mail, recipient name, sender name
    and message, and the order number given; the order is not touched.
    When the issuance raises, the exception goes to the caller and
    nothing has changed. *)
Theorem createGiftCertificateFromLineItem_one platform li orderNo w :
  (issuance_raises platform (Money.value (netPrice li)) = false ->
   exists gc w',
     giftCertHelpers.createGiftCertificateFromLineItem platform li orderNo w
       = Normal (List.length (giftCertificates w)) w' /\
     giftCertificates w' = giftCertificates w ++ [gc] /\
     materializes orderNo li gc /\
     order w' = order w /\
     trace w' = trace w ++ [EvCreateGiftCertificate (Money.value (netPrice li))]) /\
  (issuance_raises platform (Money.value (netPrice li)) = true ->
   exists e,
     giftCertHelpers.createGiftCertificateFromLineItem platform li orderNo w
       = Throw e w).
Proof.
  split; intro H.
  - do 2 eexists. split; [now apply createGiftCertificateFromLineItem_run|].
    cbn [order giftCertificates trace]. repeat split.
  - eexists. now apply createGiftCertificateFromLineItem_raise.
Qed.
